(** * amt-rcs: the Remote Configuration Service of [src/amt-rcs.js]

    A shallow embedding of the factory [CreateRcs] and of the module-level
    helpers of [amt-rcs.js], followed by the properties of the provisioning
    engine: chain ordering, trust validation, nonce signing, profile and
    domain resolution, password digest, and the dispatcher.

    Conventions.
    - A JavaScript value that may be [undefined] (or [null]) is an [option];
      [None] stands for both: on such values the source only uses [==],
      [!x] and [if (x)], which do not tell them apart. The one [!== null]
      of the file is on [ConfigurationScript], a path or [null].
    - node-forge, [fs], [crypto], [Buffer] and [JSON] are collaborators of
      the module: they are the fields of the class [Host].
    - The object [obj] is the record [rcsState]; its methods are state
      transformers that may end in an exception ([Throw]). *)

From Stdlib Require Import Strings.String Strings.Ascii Strings.Byte List Bool Arith Lia DecimalString.
From stdpp Require Import base option list gmap strings.
Import ListNotations.

Local Open Scope string_scope.
Local Open Scope list_scope.

(** ** Strings and buffers as JavaScript sees them *)

Abbreviation buffer := (list byte).

(** [x.toString()] inside a string concatenation. *)
Definition jsString (v : option string) : string :=
  match v with
  | Some s => s
  | None => "undefined"
  end.

(** Truthiness of a string-or-undefined value: [if (v)]. *)
Definition truthy (v : option string) : bool :=
  match v with
  | Some s => negb (String.eqb s "")
  | None => false
  end.

(** [a == b] on values that are strings or undefined. *)
Definition looseEq (a b : option string) : bool :=
  match a, b with
  | Some x, Some y => String.eqb x y
  | None, None => true
  | _, _ => false
  end.

(** Decimal rendering of a connection index in a concatenation. *)
Definition jsNumber (n : nat) : string := NilZero.string_of_uint (Nat.to_uint n).

Definition dquote : string := String (ascii_of_nat 34) EmptyString.

(** [String.prototype.toUpperCase] on ASCII text. *)
Definition upperAscii (c : ascii) : ascii :=
  let n := nat_of_ascii c in
  if ((97 <=? n) && (n <=? 122))%nat then ascii_of_nat (n - 32) else c.

Fixpoint toUpperCase (s : string) : string :=
  match s with
  | EmptyString => EmptyString
  | String c tl => String (upperAscii c) (toUpperCase tl)
  end.

(** [s.startsWith(p)]. *)
Fixpoint startsWith (p s : string) : bool :=
  match p, s with
  | EmptyString, _ => true
  | String a p', String b s' => Ascii.eqb a b && startsWith p' s'
  | String _ _, EmptyString => false
  end.

(** [s.includes(p)]. *)
Fixpoint includes (s p : string) : bool :=
  startsWith p s ||
  match s with
  | EmptyString => false
  | String _ tl => includes tl p
  end.

Fixpoint dropString (n : nat) (s : string) : string :=
  match n, s with
  | O, _ => s
  | S n', String _ tl => dropString n' tl
  | S _, EmptyString => EmptyString
  end.

(** [s.replace(pat, '')] with a string pattern: the first occurrence of
    [pat] is removed, the rest is kept. *)
Fixpoint removeFirst (pat s : string) : string :=
  if startsWith pat s then dropString (String.length pat) s
  else match s with
       | EmptyString => EmptyString
       | String c tl => String c (removeFirst pat tl)
       end.

(** [toHex()] / [digest('hex')]: two lowercase hexadecimal digits per byte. *)
Definition hexDigit (n : nat) : ascii :=
  if (n <? 10)%nat then ascii_of_nat (48 + n) else ascii_of_nat (87 + n).

Definition hexOfByte (b : byte) : string :=
  let n := Byte.to_nat b in
  String (hexDigit (n / 16)) (String (hexDigit (n mod 16)) EmptyString).

Fixpoint toHex (bs : buffer) : string :=
  match bs with
  | [] => EmptyString
  | b :: tl => hexOfByte b +:+ toHex tl
  end.

(** ** Data model *)

(** What the module observes of a node-forge certificate object:
    [cert.subject.hash], [cert.issuer.hash], [forge.pki.certificateToPem(cert)]
    and [forge.asn1.toDer(forge.pki.certificateToAsn1(cert)).getBytes()]. *)
Record certificate := mkCertificate {
  certSubjectHash : string;
  certIssuerHash : string;
  certPem : string;
  certDer : buffer
}.

(** A node-forge private key object; only its key material matters. *)
Record privateKeyObj := mkPrivateKey { keyMaterial : buffer }.

(** [pfx_out] of [convertPfxToObject]. *)
Record pfxObject := mkPfx {
  pfxCerts : list certificate;
  pfxKeys : list privateKeyObj
}.

(** One element of the device's [hashes] array; [certificateHash] is
    undefined when the element has no such property. *)
Record hashEntry := mkHash { certificateHash : option string }.

(** An entry of [obj.connection]. *)
Record connectionState := mkConnection {
  profile : option string;
  dnsSuffix : option string;
  digestRealm : option string;
  fwNonce : option buffer;
  certHashes : option (list hashEntry);
  amtGuid : option string
}.

Definition emptyConnection : connectionState :=
  mkConnection None None None None None None.

(** An inbound protocol message once it is an object; [m_data] is the
    [data] property read by the log-only events. *)
Record message := mkMessage {
  m_action : option string;
  m_profile : option string;
  m_fqdn : option string;
  m_realm : option string;
  m_nonce : option string;
  m_hashes : option (list hashEntry);
  m_uuid : option string;
  m_data : option string
}.

(** Property reads on a string primitive all give [undefined]. *)
Definition noProperties : message :=
  mkMessage None None None None None None None None.

(** What [JSON.parse] returns: [null], or a value whose property reads
    are those of [m]. A number, a boolean, a string or an array has none
    of the properties the handler reads: it is [ParsedValue noProperties]. *)
Inductive parsed :=
| ParsedNull
| ParsedValue (m : message).

(** The [message] argument of the handler: a string frame or an object. *)
Inductive wsMessage :=
| Text (s : string)
| Structured (m : message).

(** [rcs-config.json]. [ConfigurationScript] is a path or [null] ([None]). *)
Record amtDomain := mkDomain {
  DomainSuffix : string;
  ProvisioningCert : string;
  ProvisioningCertPassword : string
}.

Record amtConfiguration := mkProfile {
  ProfileName : string;
  AMTPassword : string;
  ConfigurationScript : option string
}.

Record rcsConfiguration := mkConfig {
  AMTDomains : list amtDomain;
  AMTConfigurations : list amtConfiguration
}.

(** [provisioningCertificateObj] of [dumpPfx]: the chain may hold
    [undefined] entries ([leaf.pem] or [root.pem] never assigned). *)
Record provisioningCertificateObj := mkCertObj {
  certChain : list (option string);
  privateKey : option privateKeyObj
}.

(** An object tested with [.errorText] is either an error object or the
    value itself. Every [errorText] literal of the file is a non-empty
    string, hence truthy. *)
Inductive orError (A : Type) :=
| ErrorText (errorText : string)
| Value (a : A).
Arguments ErrorText {A} errorText.
Arguments Value {A} a.

(** [rcsObj] as returned by [remoteConfiguration] on success. *)
Record rcsPayload := mkPayload {
  action : string;
  certs : provisioningCertificateObj;
  nonce : string;
  signature : string;
  password : string;
  profileScript : option string
}.

(** What [obj.wsServer.sendMessage] receives (lines 311-313). *)
Record envelope := mkEnvelope {
  body : orError rcsPayload;
  version : nat;
  status : string
}.

Definition RCSMessageProtocolVersion : nat := 1.

(** The error texts of the file. *)
Definition errInvalidMessage := "Invalid message from client".
Definition errNoConnection := "WebSocket connection not found in list of connected clients.".
Definition errProfileMismatch := "Specified AMT profile name does not match list of available AMT profiles.".
Definition errDomainMissing := "AMT domain suffix not specified.".
Definition errDomainMismatch := "Specified AMT domain suffix does not match list of available AMT domain suffixes.".
Definition errCertNotFound := "AMT Provisioning Certificate not found on server".
Definition errUntrusted := "Provisioning Certificate doesn't match any trusted certificates from AMT".
Definition errDecrypt := "Decrypting provisining certificate failed.".
Definition errSignature := "Unable to create Digital Signature".

(** The failure kinds of the error-handling design, and the kind each
    error text of the file stands for. No text of the file reports an
    incomplete chain. *)
Inductive errorKind :=
| ProtocolParseError
| ConnectionNotFoundError
| UnknownProfileError
| MissingDomainError
| UnknownDomainError
| CertificateFileError
| UntrustedCertificateError
| ContainerDecryptionError
| SignatureError
| IncompleteChainError.

Definition errorTable : list (string * errorKind) :=
  [ (errInvalidMessage, ProtocolParseError);
    (errNoConnection, ConnectionNotFoundError);
    (errProfileMismatch, UnknownProfileError);
    (errDomainMissing, MissingDomainError);
    (errDomainMismatch, UnknownDomainError);
    (errCertNotFound, CertificateFileError);
    (errUntrusted, UntrustedCertificateError);
    (errDecrypt, ContainerDecryptionError);
    (errSignature, SignatureError) ].

Fixpoint kindOfText (table : list (string * errorKind)) (text : string) : option errorKind :=
  match table with
  | [] => None
  | (t, k) :: tl => if String.eqb t text then Some k else kindOfText tl text
  end.

Definition errorKindOf (text : string) : option errorKind := kindOfText errorTable text.

(** ** Collaborators *)

Class Host := {
  (* fs *)
  fs_existsSync : string -> bool;
  (* [fs.readFileSync(path)]; [None] when it throws *)
  fs_readFileSync : string -> option buffer;
  (* [fs.readFileSync(path, 'utf8')]; [None] when it throws *)
  fs_readFileSync_utf8 : string -> option string;
  (* node-forge; [None] when the call throws *)
  asn1 : Type;
  pkcs12 : Type;
  forge_asn1_fromDer : buffer -> option asn1;
  forge_pkcs12FromAsn1 : asn1 -> string -> option pkcs12;
  forge_certBags : pkcs12 -> list certificate;
  forge_keyBags : pkcs12 -> list privateKeyObj;
  forge_privateKeyToPem : privateKeyObj -> option string;
  forge_sha256 : buffer -> buffer;
  forge_sha256_length : forall b, length (forge_sha256 b) = 32;
  (* crypto: the bytes [crypto.randomBytes] hands out, in order *)
  crypto_entropy : nat -> byte;
  (* [createSign('sha256')], [update(message)], [sign(pem)]; [None] when it throws *)
  crypto_sign_sha256 : buffer -> string -> option buffer;
  (* [createHash('md5').update(data).digest()] *)
  crypto_md5 : string -> buffer;
  (* Buffer *)
  base64_encode : buffer -> string;
  base64_decode : string -> buffer;
  (* [JSON.parse]; [None] when it throws *)
  JSON_parse : string -> option parsed
}.

(** ** Exceptions, state and the method monad *)

Inductive exn :=
| TypeError (what : string)
| ReferenceError (identifier : string)
| SystemError (what : string).

Inductive outcome (A : Type) :=
| Normal (a : A)
| Throw (e : exn).
Arguments Normal {A} a.
Arguments Throw {A} e.

Inductive fsCall :=
| ExistsSync (path : string)
| ReadFileSync (path : string)
| ReadFileSyncUtf8 (path : string).

(** The mutable part of [obj] and of its surroundings. *)
Record rcsState := mkState {
  connection : gmap nat connectionState;   (* obj.connection *)
  wsServer : bool;                         (* obj.wsServer is set *)
  console : list string;                   (* messages given to obj.output *)
  sent : list (nat * envelope);            (* obj.wsServer.sendMessage calls *)
  entropyPos : nat;                        (* random bytes consumed so far *)
  fsCalls : list fsCall;                   (* file system accesses *)
  dbCalls : list connectionState           (* obj.db calls *)
}.

Definition M (A : Type) : Type := rcsState -> outcome A * rcsState.

Definition ret {A} (a : A) : M A := fun st => (Normal a, st).
Definition throw {A} (e : exn) : M A := fun st => (Throw e, st).
Definition bind {A B} (m : M A) (k : A -> M B) : M B :=
  fun st =>
    match m st with
    | (Normal a, st') => k a st'
    | (Throw e, st') => (Throw e, st')
    end.
Definition get : M rcsState := fun st => (Normal st, st).
Definition modify (f : rcsState -> rcsState) : M unit := fun st => (Normal tt, f st).

Notation "x <- m ;; k" := (bind m (fun x => k))
  (at level 100, m at next level, right associativity).
Notation "m ;;; k" := (bind m (fun _ => k))
  (at level 100, right associativity).

Definition setConnection (f : gmap nat connectionState -> gmap nat connectionState)
    (st : rcsState) : rcsState :=
  mkState (f (connection st)) (wsServer st) (console st) (sent st)
          (entropyPos st) (fsCalls st) (dbCalls st).

Definition logConsole (msg : string) (st : rcsState) : rcsState :=
  mkState (connection st) (wsServer st) (console st ++ [msg]) (sent st)
          (entropyPos st) (fsCalls st) (dbCalls st).

Definition logSent (index : nat) (e : envelope) (st : rcsState) : rcsState :=
  mkState (connection st) (wsServer st) (console st) (sent st ++ [(index, e)])
          (entropyPos st) (fsCalls st) (dbCalls st).

Definition advanceEntropy (n : nat) (st : rcsState) : rcsState :=
  mkState (connection st) (wsServer st) (console st) (sent st)
          (entropyPos st + n) (fsCalls st) (dbCalls st).

Definition logFs (c : fsCall) (st : rcsState) : rcsState :=
  mkState (connection st) (wsServer st) (console st) (sent st)
          (entropyPos st) (fsCalls st ++ [c]) (dbCalls st).

Definition logDb (c : connectionState) (st : rcsState) : rcsState :=
  mkState (connection st) (wsServer st) (console st) (sent st)
          (entropyPos st) (fsCalls st) (dbCalls st ++ [c]).

(** ** Identifier resolution

    The names bound at module level of [amt-rcs.js], inside [CreateRcs],
    and the Node.js globals the file uses. A reference to a name bound in
    none of the enclosing scopes throws [ReferenceError]. *)
Definition moduleScope : list string :=
  [ "forge"; "fs"; "crypto"; "websocket"; "RCSMessageProtocolVersion";
    "CreateRcs"; "convertPfxToObject"; "signString"; "verifyString";
    "generateNonce"; "sortCertificate" ].

Definition factoryScope : list string := [ "config"; "ws"; "logger"; "db"; "obj" ].

Definition nodeScope : list string :=
  [ "require"; "module"; "exports"; "__filename"; "__dirname"; "global";
    "process"; "console"; "Buffer"; "JSON"; "Array"; "Object"; "Date" ].

Definition inScope (locals : list string) (name : string) : bool :=
  existsb (String.eqb name) (locals ++ factoryScope ++ moduleScope ++ nodeScope).

Definition reference (locals : list string) (name : string) : M unit :=
  if inScope locals name then ret tt else throw (ReferenceError name).

(** ** Module-level helpers *)

(** The objects [leaf], [root] and the elements of [interObj]; [{}] has
    all three properties undefined. *)
Record certEntry := mkEntry {
  pem : option string;
  subject : option string;
  issuer : option string
}.

Definition emptyEntry : certEntry := mkEntry None None None.

(** [sortCertificate(intermediate, root)], lines 401-407. *)
Definition sortCertificate (intermediate root : certEntry) : bool :=
  if looseEq (issuer intermediate) (subject root) then true else false.

Section Rcs.

Context {host : Host}.
Variable rcsConfig : rcsConfiguration.   (* obj.rcsConfig *)
Variable db : bool.                      (* a db callback was given *)

(** [obj.output(msg)], line 52. *)
Definition output (msg : string) : M unit := modify (logConsole msg).

(** [generateNonce()], line 393: a copy of [crypto.randomBytes(20)]. *)
Definition randomBytes (n : nat) : M buffer :=
  fun st => (Normal (map crypto_entropy (seq (entropyPos st) n)), advanceEntropy n st).

Definition generateNonce : M buffer := randomBytes 20.

(** [signString(message, key)], lines 361-372: whatever throws inside the
    [try] (an undefined key included) gives the error object. *)
Definition signString (message : buffer) (key : option privateKeyObj) : orError string :=
  match key with
  | None => ErrorText errSignature
  | Some k =>
      match forge_privateKeyToPem k with
      | None => ErrorText errSignature
      | Some keyPem =>
          match crypto_sign_sha256 message keyPem with
          | Some sign => Value (base64_encode sign)
          | None => ErrorText errSignature
          end
      end
  end.

(** [Buffer.concat(list)]: an element that is not a buffer is a TypeError. *)
Fixpoint Buffer_concat (list : list (option buffer)) : option buffer :=
  match list with
  | [] => Some []
  | None :: _ => None
  | Some b :: tl =>
      match Buffer_concat tl with
      | Some rest => Some (b ++ rest)
      | None => None
      end
  end.

(** [convertPfxToObject(pfxpath, passphrase)], lines 326-353. The file is
    read and parsed outside the [try]; only [pkcs12FromAsn1] is guarded.
    Encoding the file as base64 and decoding it again (lines 329-330)
    gives its bytes back. *)
Definition convertPfxToObject (pfxpath passphrase : string) : M (orError pfxObject) :=
  modify (logFs (ReadFileSync pfxpath));;;
  match fs_readFileSync pfxpath with
  | None => throw (SystemError "fs.readFileSync")
  | Some pfxder =>
      match forge_asn1_fromDer pfxder with
      | None => throw (SystemError "forge.asn1.fromDer")
      | Some asn =>
          match forge_pkcs12FromAsn1 asn passphrase with
          | None => ret (ErrorText errDecrypt)
          | Some pfx => ret (Value (mkPfx (forge_certBags pfx) (forge_keyBags pfx)))
          end
      end
  end.

(** *** [obj.dumpPfx], lines 229-298 *)

(** Lines 239-242: the PEM text without its first BEGIN and END markers. *)
Definition trimPem (cert : certificate) : string :=
  removeFirst "-----END CERTIFICATE-----"
    (removeFirst "-----BEGIN CERTIFICATE-----" (certPem cert)).

Definition entryOf (cert : certificate) : certEntry :=
  mkEntry (Some (trimPem cert)) (Some (certSubjectHash cert)) (Some (certIssuerHash cert)).

(** Line 250: [cert.subject.hash == cert.issuer.hash]. *)
Definition selfSigned (cert : certificate) : bool :=
  String.eqb (certSubjectHash cert) (certIssuerHash cert).

(** Lines 254-257. *)
Definition fingerprintOf (cert : certificate) : string :=
  toUpperCase (toHex (forge_sha256 (certDer cert))).

(** The variables of the first loop. *)
Record certScan := mkScan {
  leaf : certEntry;
  root : certEntry;
  interObj : list certEntry;
  fingerprint : option string
}.

Definition emptyScan : certScan := mkScan emptyEntry emptyEntry [] None.

(** One iteration of the loop of lines 237-262. *)
Definition scanStep (i : nat) (cert : certificate) (s : certScan) : certScan :=
  if Nat.eqb i 0 then
    mkScan (entryOf cert) (root s) (interObj s) (fingerprint s)
  else if selfSigned cert then
    mkScan (leaf s) (entryOf cert) (interObj s) (Some (fingerprintOf cert))
  else
    mkScan (leaf s) (root s) (interObj s ++ [entryOf cert]) (fingerprint s).

Fixpoint scanCerts (i : nat) (certs : list certificate) (s : certScan) : certScan :=
  match certs with
  | [] => s
  | cert :: tl => scanCerts (S i) tl (scanStep i cert s)
  end.

(** The loops of lines 270-274 ([adjacentToRoot = false]) and 276-280
    ([adjacentToRoot = true]): push the PEM of every intermediate on which
    [sortCertificate] answers [adjacentToRoot]. *)
Fixpoint pushIntermediates (adjacentToRoot : bool) (root : certEntry)
    (inter : list certEntry) (chain : list (option string)) : list (option string) :=
  match inter with
  | [] => chain
  | e :: tl =>
      pushIntermediates adjacentToRoot root tl
        (if Bool.eqb (sortCertificate e root) adjacentToRoot then chain ++ [pem e] else chain)
  end.

(** Lines 266-282. *)
Definition orderChain (s : certScan) : list (option string) :=
  let chain := [pem (leaf s)] in
  let chain := pushIntermediates false (root s) (interObj s) chain in
  let chain := pushIntermediates true (root s) (interObj s) chain in
  chain ++ [pem (root s)].

(** Lines 283-289: every key overwrites the previous one. *)
Definition lastKey (keys : list privateKeyObj) : option privateKeyObj :=
  fold_left (fun _ key => Some key) keys None.

(** Lines 230-289: the object built before the trust check. *)
Definition assemble (pfxobj : pfxObject) : provisioningCertificateObj :=
  mkCertObj (orderChain (scanCerts 0 (pfxCerts pfxobj) emptyScan)) (lastKey (pfxKeys pfxobj)).

(** Lines 291-295: is some [certHashes[x].certificateHash == fingerprint]? *)
Fixpoint trustedRoot (hashes : list hashEntry) (fingerprint : option string) : bool :=
  match hashes with
  | [] => false
  | h :: tl =>
      if looseEq (certificateHash h) fingerprint then true else trustedRoot tl fingerprint
  end.

Definition dumpPfx (pfxobj : pfxObject) (index : nat) : M (orError provisioningCertificateObj) :=
  let s := scanCerts 0 (pfxCerts pfxobj) emptyScan in
  let provisioningCertificateObj := assemble pfxobj in
  st <- get;;
  match connection st !! index with
  | None => throw (TypeError "obj.connection[index] is undefined")
  | Some conn =>
      match certHashes conn with
      | None => throw (TypeError "obj.connection[index].certHashes is undefined")
      | Some hashes =>
          if trustedRoot hashes (fingerprint s)
          then ret (Value provisioningCertificateObj)
          else ret (ErrorText errUntrusted)
      end
  end.

(** *** [obj.getProvisioningCertObj], lines 183-220 *)

Definition getProvisioningCertObj (domain : option string) (index : nat)
    : M (orError provisioningCertificateObj) :=
  if negb (truthy domain) then ret (ErrorText errDomainMissing)
  else
    match find (fun d => looseEq (Some (DomainSuffix d)) domain) (AMTDomains rcsConfig) with
    | None =>
        output errDomainMismatch;;;
        ret (ErrorText errDomainMismatch)
    | Some d =>
        let cert := ProvisioningCert d in
        let certpass := ProvisioningCertPassword d in
        modify (logFs (ExistsSync cert));;;
        if negb (fs_existsSync cert) then ret (ErrorText errCertNotFound)
        else
          pfxobj <- convertPfxToObject cert certpass;;
          match pfxobj with
          | ErrorText t => ret (ErrorText t)
          | Value pfxobj => dumpPfx pfxobj index
          end
    end.

(** *** [obj.remoteConfiguration], lines 125-176 *)

(** Lines 150-167: the AMT password of the connection's profile. *)
Definition amtPasswordOf (conn : connectionState) : M (orError string) :=
  if negb (truthy (profile conn)) then
    match AMTConfigurations rcsConfig !! 0 with
    | Some c => ret (Value (AMTPassword c))
    | None => throw (TypeError "obj.rcsConfig.AMTConfigurations[0] is undefined")
    end
  else
    match find (fun c => looseEq (Some (ProfileName c)) (profile conn))
               (AMTConfigurations rcsConfig) with
    | Some c => ret (Value (AMTPassword c))
    | None =>
        output errProfileMismatch;;;
        ret (ErrorText errProfileMismatch)
    end.

(** Lines 170-174: the script of [AMTConfigurations[cindex]]; a failed
    read is caught and leaves [null]. *)
Definition profileScriptOf (cindex : nat) : M (option string) :=
  match AMTConfigurations rcsConfig !! cindex with
  | None => throw (TypeError "obj.rcsConfig.AMTConfigurations[cindex] is undefined")
  | Some c =>
      match ConfigurationScript c with
      | None => ret None
      | Some path =>
          if String.eqb path "" then ret None
          else
            modify (logFs (ReadFileSyncUtf8 path));;;
            ret (fs_readFileSync_utf8 path)
      end
  end.

Definition remoteConfiguration (fwNonce : option buffer) (cindex : nat)
    : M (orError rcsPayload) :=
  st <- get;;
  match connection st !! cindex with
  | None => ret (ErrorText errNoConnection)
  | Some conn =>
      let dnsSuffix := if truthy (dnsSuffix conn) then dnsSuffix conn else None in
      certs <- getProvisioningCertObj dnsSuffix cindex;;
      match certs with
      | ErrorText t => ret (ErrorText t)
      | Value certs =>
          let privateKey := privateKey certs in
          (* delete rcsObj.certs.privateKey *)
          let certs := mkCertObj (certChain certs) None in
          nonce <- generateNonce;;
          match Buffer_concat [fwNonce; Some nonce] with
          | None => throw (TypeError "Buffer.concat: list[0] is not a Buffer")
          | Some arr =>
              match signString arr privateKey with
              | ErrorText t => ret (ErrorText t)
              | Value signature =>
                  amtPassword <- amtPasswordOf conn;;
                  match amtPassword with
                  | ErrorText t => ret (ErrorText t)
                  | Value amtPassword =>
                      let data := "admin:" +:+ jsString (digestRealm conn) +:+ ":" +:+ amtPassword in
                      let password := toHex (crypto_md5 data) in
                      profileScript <- profileScriptOf cindex;;
                      ret (Value (mkPayload "acmactivate" certs (base64_encode nonce)
                                            signature password profileScript))
                  end
              end
          end
      end
  end.

(** *** [obj.sendMessage], lines 308-314 *)

(** Line 310 reads [status], which is a parameter in the header comment
    but not in the function: the reference does not resolve. Lines 311-313
    would hand the message to the transport. *)
Definition sendMessage (index : nat) (message : orError rcsPayload) : M unit :=
  st <- get;;
  (if wsServer st then ret tt else output "WebSocket Server not initialized.");;;
  reference ["index"; "message"] "status";;;
  modify (logSent index (mkEnvelope message RCSMessageProtocolVersion "ok")).

(** *** [obj.wsConnectionHandler], lines 78-117 *)

Definition handlerLocals : list string := [ "event"; "message"; "index"; "msg"; "e"; "rcsObj" ].

(** Lines 88-93: the fields present in the message are merged. *)
Definition mergeMessage (m : message) (c : connectionState) : connectionState :=
  mkConnection
    (if truthy (m_profile m) then m_profile m else profile c)
    (if truthy (m_fqdn m) then m_fqdn m else dnsSuffix c)
    (if truthy (m_realm m) then m_realm m else digestRealm c)
    (if truthy (m_nonce m) then Some (base64_decode (jsString (m_nonce m))) else fwNonce c)
    (match m_hashes m with Some hs => Some hs | None => certHashes c end)
    (if truthy (m_uuid m) then m_uuid m else amtGuid c).

Definition acmactivate (m : message) (index : nat) : M unit :=
  st <- get;;
  match connection st !! index with
  | None => throw (TypeError "obj.connection[index] is undefined")
  | Some c =>
      let c := mergeMessage m c in
      modify (setConnection <[index := c]>);;;
      (if db then modify (logDb c) else ret tt);;;
      rcsObj <- remoteConfiguration (fwNonce c) index;;
      (match rcsObj with
       | ErrorText t => output t;;; reference handlerLocals "sendMessage"
       | Value _ => ret tt
       end);;;
      sendMessage index rcsObj
  end.

Definition wsConnectionHandler (event : string) (message : wsMessage) (index : nat) : M unit :=
  st <- get;;
  (match connection st !! index with
   | None => modify (setConnection <[index := emptyConnection]>)
   | Some _ => ret tt
   end);;;
  em <- match message with
        | Text s =>
            match JSON_parse s with
            | Some (ParsedValue m) =>
                ret (if truthy (m_action m) then jsString (m_action m) else event, m)
            | Some ParsedNull =>
                (* line 83: [message.action] on null *)
                throw (TypeError "message is null")
            | None =>
                output errInvalidMessage;;;
                sendMessage index (ErrorText errInvalidMessage);;;
                ret (event, noProperties)
            end
        | Structured m => ret (event, m)
        end;;
  let event := fst em in
  let message := snd em in
  if String.eqb event "acmactivate" then acmactivate message index
  else if String.eqb event "error" then
    output ("AMT Device " +:+ jsNumber index +:+ " received " +:+ dquote +:+ "error"
            +:+ dquote +:+ " message: " +:+ jsString (m_data message))
  else if String.eqb event "close" then
    output (jsString (m_data message));;;
    modify (setConnection (delete index))
  else if String.eqb event "finish" then
    output ("AMT Configuration of device " +:+ jsNumber index +:+ " " +:+ jsString (m_data message))
  else
    output ("Detected a new websocket message type (need to handle this): " +:+ event).

End Rcs.

(** [CreateRcs(config, ws, logger, db)], lines 44-51: the fresh object. *)
Definition CreateRcs (ws : bool) : rcsState :=
  mkState ∅ ws [] [] 0 [] [].

(** ** Vocabulary of the properties *)

Definition isUpperHex (c : ascii) : bool :=
  existsb (Ascii.eqb c) (list_ascii_of_string "0123456789ABCDEF").

(** No two neighbouring characters of [s] are both uppercase hex digits. *)
Fixpoint hexPairFree (s : string) : bool :=
  match s with
  | String x ((String y _) as tl) => negb (isUpperHex x && isUpperHex y) && hexPairFree tl
  | _ => true
  end.

(** The collaborators of [h], except that the key bags of every
    container hold the keys [keys] gives. *)
Definition withKeys (h : Host) (keys : @pkcs12 h -> list privateKeyObj) : Host := {|
  fs_existsSync := @fs_existsSync h;
  fs_readFileSync := @fs_readFileSync h;
  fs_readFileSync_utf8 := @fs_readFileSync_utf8 h;
  asn1 := @asn1 h;
  pkcs12 := @pkcs12 h;
  forge_asn1_fromDer := @forge_asn1_fromDer h;
  forge_pkcs12FromAsn1 := @forge_pkcs12FromAsn1 h;
  forge_certBags := @forge_certBags h;
  forge_keyBags := keys;
  forge_privateKeyToPem := @forge_privateKeyToPem h;
  forge_sha256 := @forge_sha256 h;
  forge_sha256_length := @forge_sha256_length h;
  crypto_entropy := @crypto_entropy h;
  crypto_sign_sha256 := @crypto_sign_sha256 h;
  crypto_md5 := @crypto_md5 h;
  base64_encode := @base64_encode h;
  base64_decode := @base64_decode h;
  JSON_parse := @JSON_parse h
|}.

Section Vocabulary.

Context {host : Host}.
Variable rcsConfig : rcsConfiguration.

(** The root after scanning [certs] past index 0: the last self-signed
    certificate, or the previous root. *)
Definition rootAfter (certs : list certificate) (r0 : certEntry) : certEntry :=
  fold_left (fun r c => if selfSigned c then entryOf c else r) certs r0.

Definition fingerprintAfter (certs : list certificate) (f0 : option string) : option string :=
  fold_left (fun f c => if selfSigned c then Some (fingerprintOf c) else f) certs f0.

Definition intermediatesOf (certs : list certificate) : list certificate :=
  List.filter (fun c => negb (selfSigned c)) certs.

(** The PEM bodies of the intermediates on one side of the root [r]. *)
Definition side (adjacentToRoot : bool) (r : certificate) (inters : list certificate)
    : list (option string) :=
  map (fun c => Some (trimPem c))
      (List.filter (fun c => Bool.eqb (String.eqb (certIssuerHash c) (certSubjectHash r))
                                      adjacentToRoot) inters).

(** Line 133: the domain handed to [getProvisioningCertObj]. *)
Definition requestedDomain (conn : connectionState) : option string :=
  if truthy (dnsSuffix conn) then dnsSuffix conn else None.

(** The console nonce drawn when [st] is the state at line 141. *)
Definition consoleNonceAt (st : rcsState) : buffer :=
  map crypto_entropy (seq (entropyPos st) 20).

(** Line 168. *)
Definition digestInput (conn : connectionState) (amtPassword : string) : string :=
  "admin:" +:+ jsString (digestRealm conn) +:+ ":" +:+ amtPassword.

(** The stages a request goes through before a payload is returned. *)
Inductive resolution (fwNonce : option buffer) (cindex : nat) (st st' : rcsState)
    (p : rcsPayload) : Prop :=
| mkResolution (conn : connectionState) (o : provisioningCertificateObj)
    (st1 : rcsState) (fw : buffer) (sig amtPassword : string) (st2 : rcsState)
    (res_connection : connection st !! cindex = Some conn)
    (res_getCerts :
       getProvisioningCertObj rcsConfig (requestedDomain conn) cindex st
       = (Normal (Value o), st1))
    (res_fwNonce : fwNonce = Some fw)
    (res_signString :
       signString (fw ++ consoleNonceAt st1) (privateKey o) = Value sig)
    (res_password :
       amtPasswordOf rcsConfig conn (advanceEntropy 20 st1)
       = (Normal (Value amtPassword), st2))
    (res_script : profileScriptOf rcsConfig cindex st2 = (Normal (profileScript p), st'))
    (res_payload :
       p = mkPayload "acmactivate" (mkCertObj (certChain o) None)
                     (base64_encode (consoleNonceAt st1)) sig
                     (toHex (crypto_md5 (digestInput conn amtPassword)))
                     (profileScript p)).

(** A method is silent when it hands nothing to the transport. *)
Definition silent {A : Type} (m : M A) : Prop :=
  forall st, sent (snd (m st)) = sent st.

(** Membership after both sides are put in uppercase, as the trust
    contract words it. *)
Definition trustedAfterNormalization (fp : string) (hashes : list hashEntry) : Prop :=
  In (Some (toUpperCase fp))
     (map (fun h => option_map toUpperCase (certificateHash h)) hashes).

(** A method keeps an observation [proj] of the state, whatever its
    outcome. *)
Definition keeps {X A : Type} (proj : rcsState -> X) (m : M A) : Prop :=
  forall st, proj (snd (m st)) = proj st.

(** A method touches no entry of [obj.connection] other than [index]. *)
Definition localTo {A : Type} (index : nat) (m : M A) : Prop :=
  forall st j, j <> index -> connection (snd (m st)) !! j = connection st !! j.

(** Line 79: the state once [obj.connection[index]] is sure to exist. *)
Definition ensured (index : nat) (st : rcsState) : rcsState :=
  match connection st !! index with
  | None => setConnection <[index := emptyConnection]> st
  | Some _ => st
  end.

(** What is recorded for [index], [{}] when nothing is. *)
Definition recorded (index : nat) (st : rcsState) : connectionState :=
  default emptyConnection (connection st !! index).

(** [d] is the first entry of [AMTDomains] whose suffix is [domain]: the
    one the loop of lines 190-198 stops at. *)
Definition firstDomain (domain : string) (d : amtDomain) : Prop :=
  exists pre post,
    AMTDomains rcsConfig = pre ++ d :: post
    /\ Forall (fun e => DomainSuffix e <> domain) pre
    /\ DomainSuffix d = domain.

(** [p] is the first entry of [AMTConfigurations] named [name]. *)
Definition firstProfile (name : string) (p : amtConfiguration) : Prop :=
  exists pre post,
    AMTConfigurations rcsConfig = pre ++ p :: post
    /\ Forall (fun c => ProfileName c <> name) pre
    /\ ProfileName p = name.

(** The container of [d] exists, is read, parsed and decrypted to
    [pfxobj]. *)
Definition opens (d : amtDomain) (pfxobj : pfxObject) : Prop :=
  fs_existsSync (ProvisioningCert d) = true
  /\ exists der asn pfx,
       fs_readFileSync (ProvisioningCert d) = Some der
       /\ forge_asn1_fromDer der = Some asn
       /\ forge_pkcs12FromAsn1 asn (ProvisioningCertPassword d) = Some pfx
       /\ pfxobj = mkPfx (forge_certBags pfx) (forge_keyBags pfx).

(** The state once the container of [d] has been looked up and read. *)
Definition containerRead (d : amtDomain) (st : rcsState) : rcsState :=
  logFs (ReadFileSync (ProvisioningCert d)) (logFs (ExistsSync (ProvisioningCert d)) st).

(** The characters of a string. *)
Definition chars (s : string) : list ascii := list_ascii_of_string s.

(** Lines 171-173 on an entry of [AMTConfigurations]: the script text,
    and the state once it has been read. *)
Definition scriptOf (entry : amtConfiguration) : option string :=
  match ConfigurationScript entry with
  | None => None
  | Some path => if String.eqb path "" then None else fs_readFileSync_utf8 path
  end.

Definition scriptRead (entry : amtConfiguration) (st : rcsState) : rcsState :=
  match ConfigurationScript entry with
  | None => st
  | Some path => if String.eqb path "" then st else logFs (ReadFileSyncUtf8 path) st
  end.

(** [pw] is what lines 150-161 resolve for [conn]: the password of the
    first entry when no profile is named, of the first entry of that name
    otherwise. *)
Definition resolvesTo (conn : connectionState) (pw : string) : Prop :=
  (truthy (profile conn) = false
   /\ exists c rest, AMTConfigurations rcsConfig = c :: rest /\ pw = AMTPassword c)
  \/ (exists name p, profile conn = Some name /\ name <> ""
                     /\ firstProfile name p /\ pw = AMTPassword p).

End Vocabulary.

(** ** A test world

    Stand-ins for the collaborators, a configuration with one profile and
    one domain per container, and three containers: a full chain, a chain
    without root and a chain without key. The digest, signature and
    encoding functions are placeholders; only their shape matters here. *)
Module Demo.

Definition beginMarker := "-----BEGIN CERTIFICATE-----".
Definition endMarker := "-----END CERTIFICATE-----".

Definition leafCert : certificate :=
  mkCertificate "4c" "a1" (beginMarker +:+ "LEAF" +:+ endMarker) [x4c].
Definition interA : certificate :=
  mkCertificate "a1" "a2" (beginMarker +:+ "INTER-A" +:+ endMarker) [xa1].
Definition interB : certificate :=
  mkCertificate "a2" "52" (beginMarker +:+ "INTER-B" +:+ endMarker) [xa2].
Definition rootCert : certificate :=
  mkCertificate "52" "52" (beginMarker +:+ "ROOT" +:+ endMarker) [xab; xcd].

Definition provisioningKey : privateKeyObj := mkPrivateKey [x6b; x65; x79].

Definition fullChain : pfxObject :=
  mkPfx [leafCert; interB; rootCert; interA] [provisioningKey].
Definition noRoot : pfxObject := mkPfx [leafCert; interA] [provisioningKey].
Definition noKey : pfxObject := mkPfx [leafCert; rootCert] [].

Definition digest32 (b : buffer) : buffer := hd x00 b :: repeat x00 31.

Definition tagOf (path : string) : option buffer :=
  if String.eqb path "/certs/vprodemo.pfx" then Some [x01]
  else if String.eqb path "/certs/noroot.pfx" then Some [x02]
  else if String.eqb path "/certs/nokey.pfx" then Some [x03]
  else None.

Definition openTag (der : buffer) (passphrase : string) : option pfxObject :=
  if negb (String.eqb passphrase "P@ssw0rd") then None
  else match der with
       | [x01] => Some fullChain
       | [x02] => Some noRoot
       | [x03] => Some noKey
       | _ => None
       end.

#[export] Instance world : Host := {|
  fs_existsSync := fun path => match tagOf path with Some _ => true | None => false end;
  fs_readFileSync := tagOf;
  fs_readFileSync_utf8 := fun path =>
    if String.eqb path "/scripts/setup.mescript" then Some "script" else None;
  asn1 := buffer;
  pkcs12 := pfxObject;
  forge_asn1_fromDer := fun der => Some der;
  forge_pkcs12FromAsn1 := openTag;
  forge_certBags := pfxCerts;
  forge_keyBags := pfxKeys;
  forge_privateKeyToPem := fun key => Some (toHex (keyMaterial key));
  forge_sha256 := digest32;
  forge_sha256_length := fun _ => eq_refl;
  crypto_entropy := fun n => nth (n mod 4) [x11; x22; x33; x44] x00;
  crypto_sign_sha256 := fun message keyPem => Some (rev message);
  crypto_md5 := fun data => firstn 16 (list_byte_of_string data ++ repeat x00 16);
  base64_encode := toHex;
  base64_decode := list_byte_of_string;
  JSON_parse := fun s =>
    if String.eqb s "{}" then Some (ParsedValue noProperties)
    else if String.eqb s "null" then Some ParsedNull
    else None
|}.

Definition config : rcsConfiguration :=
  mkConfig
    [ mkDomain "vprodemo.com" "/certs/vprodemo.pfx" "P@ssw0rd";
      mkDomain "noroot.example" "/certs/noroot.pfx" "P@ssw0rd";
      mkDomain "nokey.example" "/certs/nokey.pfx" "P@ssw0rd" ]
    [ mkProfile "default" "pw1" None ].

Definition rootFingerprint : string :=
  "AB00000000000000000000000000000000000000000000000000000000000000".

(** A device that trusts the root of [fullChain]. *)
Definition device (domain : string) (hash : string) : connectionState :=
  mkConnection None (Some domain) (Some "Digest:A4070000000000000000000000000000")
               (Some [x0a; x0b]) (Some [mkHash (Some hash)]) None.

Definition serving (index : nat) (c : connectionState) : rcsState :=
  mkState {[ index := c ]} true [] [] 0 [] [].

Definition firmwareNonce : buffer := [x0a; x0b].

(** The first device asks for [vprodemo.com] and trusts its root. *)
Definition trusting : connectionState := device "vprodemo.com" rootFingerprint.
Definition request : rcsState := serving 0 trusting.

(** [request] once the container has been looked up and read. *)
Definition requestRead : rcsState :=
  logFs (ReadFileSync "/certs/vprodemo.pfx") (logFs (ExistsSync "/certs/vprodemo.pfx") request).

Definition reply : rcsPayload :=
  mkPayload "acmactivate"
    (mkCertObj [Some "LEAF"; Some "INTER-A"; Some "INTER-B"; Some "ROOT"] None)
    "1122334411223344112233441122334411223344"
    "44332211443322114433221144332211443322110b0a"
    "61646d696e3a4469676573743a413430"
    None.

(** The same device sending its hash in lowercase. *)
Definition lowercaseHash : string :=
  "ab00000000000000000000000000000000000000000000000000000000000000".

(** A device naming a profile that is not configured. *)
Definition unknownProfile : connectionState :=
  mkConnection (Some "kiosk") (Some "vprodemo.com")
               (Some "Digest:A4070000000000000000000000000000")
               (Some firmwareNonce) (Some [mkHash (Some rootFingerprint)]) None.

(** A second root and key, a disk with a file that cannot be read and a
    file that is not DER, and a configuration with doubled entries. *)
Definition otherRoot : certificate :=
  mkCertificate "53" "53" (beginMarker +:+ "OTHER-ROOT" +:+ endMarker) [xcd].

Definition otherKey : privateKeyObj := mkPrivateKey [x6f].

(** The frame [{"action":"finish","data":"done"}] and what it parses to. *)
Definition finishFrame : string :=
  "{" +:+ dquote +:+ "action" +:+ dquote +:+ ":" +:+ dquote +:+ "finish" +:+ dquote
  +:+ "," +:+ dquote +:+ "data" +:+ dquote +:+ ":" +:+ dquote +:+ "done" +:+ dquote +:+ "}".

Definition finishMessage : message :=
  mkMessage (Some "finish") None None None None None None (Some "done").

Definition faultyDisk : Host := {|
  fs_existsSync := fun path =>
    String.eqb path "/certs/unreadable.pfx" || String.eqb path "/certs/garbled.pfx"
    || match tagOf path with Some _ => true | None => false end;
  fs_readFileSync := fun path =>
    if String.eqb path "/certs/garbled.pfx" then Some [xff] else tagOf path;
  fs_readFileSync_utf8 := fun path =>
    if String.eqb path "/scripts/setup.mescript" then Some "script" else None;
  asn1 := buffer;
  pkcs12 := pfxObject;
  forge_asn1_fromDer := fun der => match der with [xff] => None | _ => Some der end;
  forge_pkcs12FromAsn1 := openTag;
  forge_certBags := pfxCerts;
  forge_keyBags := pfxKeys;
  forge_privateKeyToPem := fun key => Some (toHex (keyMaterial key));
  forge_sha256 := digest32;
  forge_sha256_length := fun _ => eq_refl;
  crypto_entropy := fun n => nth (n mod 4) [x11; x22; x33; x44] x00;
  crypto_sign_sha256 := fun message keyPem => Some (rev message);
  crypto_md5 := fun data => firstn 16 (list_byte_of_string data ++ repeat x00 16);
  base64_encode := toHex;
  base64_decode := list_byte_of_string;
  JSON_parse := fun s =>
    if String.eqb s "{}" then Some (ParsedValue noProperties)
    else if String.eqb s "null" then Some ParsedNull
    else if String.eqb s finishFrame then Some (ParsedValue finishMessage)
    else None
|}.

Definition missingDomain : amtDomain := mkDomain "missing.example" "/certs/missing.pfx" "P@ssw0rd".
Definition lockedDomain : amtDomain := mkDomain "locked.example" "/certs/vprodemo.pfx" "guess".
Definition unreadableDomain : amtDomain :=
  mkDomain "unreadable.example" "/certs/unreadable.pfx" "P@ssw0rd".
Definition garbledDomain : amtDomain := mkDomain "garbled.example" "/certs/garbled.pfx" "P@ssw0rd".
Definition servedDomain : amtDomain := mkDomain "vprodemo.com" "/certs/vprodemo.pfx" "P@ssw0rd".
Definition shadowedDomain : amtDomain := mkDomain "vprodemo.com" "/certs/nokey.pfx" "P@ssw0rd".

Definition scripted : amtConfiguration :=
  mkProfile "default" "pw1" (Some "/scripts/setup.mescript").

Definition doubledConfig : rcsConfiguration :=
  mkConfig
    [ missingDomain; lockedDomain; unreadableDomain; garbledDomain; servedDomain;
      shadowedDomain ]
    [ mkProfile "kiosk" "pwA" None; mkProfile "kiosk" "pwB" None; scripted ].

(** A device that sent no hashes, and one that sent two. *)
Definition silentDevice : connectionState :=
  mkConnection None (Some "vprodemo.com") None (Some firmwareNonce) None None.

Definition twoHashes (first second : string) : connectionState :=
  mkConnection None (Some "vprodemo.com") None (Some firmwareNonce)
               (Some [mkHash (Some first); mkHash (Some second)]) None.

(** The collaborators of [world] with a signature that shows the key it
    was made with. *)
Definition keyedSigner : Host := {|
  fs_existsSync := @fs_existsSync world;
  fs_readFileSync := @fs_readFileSync world;
  fs_readFileSync_utf8 := @fs_readFileSync_utf8 world;
  asn1 := buffer;
  pkcs12 := pfxObject;
  forge_asn1_fromDer := @forge_asn1_fromDer world;
  forge_pkcs12FromAsn1 := openTag;
  forge_certBags := pfxCerts;
  forge_keyBags := pfxKeys;
  forge_privateKeyToPem := @forge_privateKeyToPem world;
  forge_sha256 := digest32;
  forge_sha256_length := fun _ => eq_refl;
  crypto_entropy := @crypto_entropy world;
  crypto_sign_sha256 := fun message keyPem => Some (list_byte_of_string keyPem ++ message);
  crypto_md5 := @crypto_md5 world;
  base64_encode := toHex;
  base64_decode := list_byte_of_string;
  JSON_parse := @JSON_parse world
|}.

Definition otherKeys (pfx : pfxObject) : list privateKeyObj := [otherKey].

End Demo.

(** * Properties *)

(** ** Text facts *)

Lemma includes_hex_pair (s : string) (a b : ascii) (p : string) :
  hexPairFree s = true -> isUpperHex a = true -> isUpperHex b = true ->
  includes s (String a (String b p)) = false.
Proof.
  intros Hfree Ha Hb. induction s as [|x s IH]; [reflexivity|].
  cbn [includes]. apply orb_false_iff. split.
  - destruct s as [|y s]; cbn [startsWith].
    + destruct (Ascii.eqb a x); reflexivity.
    + cbn [hexPairFree] in Hfree. apply andb_true_iff in Hfree as [Hxy _].
      destruct (Ascii.eqb_spec a x) as [->|]; [|reflexivity].
      destruct (Ascii.eqb_spec b y) as [->|]; [|reflexivity].
      rewrite Ha, Hb in Hxy. discriminate.
  - apply IH. destruct s as [|y s]; [reflexivity|].
    cbn [hexPairFree] in Hfree. apply andb_true_iff in Hfree as [_ Htl]. exact Htl.
Qed.

Lemma hexOfByte_upper (b : byte) :
  exists h l, toUpperCase (hexOfByte b) = String h (String l EmptyString)
              /\ isUpperHex h = true /\ isUpperHex l = true.
Proof.
  destruct b; (eexists; eexists; split; [reflexivity | split; reflexivity]).
Qed.

Lemma toUpperCase_app (s t : string) :
  toUpperCase (s +:+ t) = toUpperCase s +:+ toUpperCase t.
Proof.
  induction s as [|c s IH]; [reflexivity|].
  change (String (upperAscii c) (toUpperCase (s +:+ t))
          = String (upperAscii c) (toUpperCase s +:+ toUpperCase t)).
  now rewrite IH.
Qed.

(** The uppercase hex form of a non-empty digest never occurs in a text
    without neighbouring hex digits. *)
Lemma includes_fingerprint (s : string) (digest : buffer) :
  hexPairFree s = true -> digest <> [] ->
  includes s (toUpperCase (toHex digest)) = false.
Proof.
  intros Hfree Hne. destruct digest as [|b tl]; [congruence|].
  cbn [toHex]. rewrite toUpperCase_app.
  destruct (hexOfByte_upper b) as (h & l & -> & Hh & Hl).
  cbn. now apply includes_hex_pair.
Qed.

Lemma errorKindOf_never_incomplete (text : string) :
  errorKindOf text <> Some IncompleteChainError.
Proof.
  unfold errorKindOf, errorTable. cbn [kindOfText].
  repeat (match goal with |- context [String.eqb ?a ?b] => destruct (String.eqb a b) end;
          [discriminate|]).
  discriminate.
Qed.

(** ** List facts *)

Lemma filter_map_comm {A B : Type} (f : A -> B) (p : B -> bool) (l : list A) :
  List.filter p (map f l) = map f (List.filter (fun x => p (f x)) l).
Proof.
  induction l as [|x l IH]; [reflexivity|].
  cbn. destruct (p (f x)); cbn; now rewrite IH.
Qed.

Lemma filter_bool_Permutation {A : Type} (p : A -> bool) (l l' : list A) :
  Permutation l l' -> Permutation (List.filter p l) (List.filter p l').
Proof.
  induction 1 as [|x l l' _ IH|x y l|l l' l'' _ IH1 _ IH2]; cbn.
  - constructor.
  - destruct (p x); [now constructor | exact IH].
  - destruct (p x), (p y); try reflexivity. apply perm_swap.
  - now transitivity (List.filter p l').
Qed.

Lemma filter_none {A : Type} (p : A -> bool) (l : list A) :
  Forall (fun x => p x = false) l -> List.filter p l = [].
Proof.
  induction 1 as [|x l Hx _ IH]; [reflexivity|]. cbn. now rewrite Hx.
Qed.

Lemma lastKey_snoc (keys : list privateKeyObj) (k : privateKeyObj) :
  lastKey (keys ++ [k]) = Some k.
Proof. unfold lastKey. now rewrite fold_left_app. Qed.

(** ** The certificate scan and the chain order *)

Section Chain.

Context {host : Host}.

Lemma scanCerts_past_leaf (certs : list certificate) :
  forall i s,
    scanCerts (S i) certs s =
    mkScan (leaf s) (rootAfter certs (root s))
           (interObj s ++ map entryOf (intermediatesOf certs))
           (fingerprintAfter certs (fingerprint s)).
Proof.
  induction certs as [|c certs IH]; intros i s.
  - cbn. rewrite app_nil_r. now destruct s.
  - cbn [scanCerts]. rewrite IH. unfold scanStep, intermediatesOf. cbn.
    destruct (selfSigned c); cbn; [reflexivity|].
    now rewrite <- app_assoc.
Qed.

Lemma rootAfter_none (certs : list certificate) (r0 : certEntry) :
  List.filter selfSigned certs = [] -> rootAfter certs r0 = r0.
Proof.
  revert r0. induction certs as [|c certs IH]; intros r0 H; [reflexivity|].
  cbn in *. destruct (selfSigned c); [discriminate|]. now apply IH.
Qed.

Lemma rootAfter_unique (certs : list certificate) (r : certificate) (r0 : certEntry) :
  List.filter selfSigned certs = [r] -> rootAfter certs r0 = entryOf r.
Proof.
  revert r0. induction certs as [|c certs IH]; intros r0 H; [discriminate|].
  cbn in *. destruct (selfSigned c).
  - injection H as -> Hnil. now apply rootAfter_none.
  - now apply IH.
Qed.

Lemma fingerprintAfter_none (certs : list certificate) (f0 : option string) :
  List.filter selfSigned certs = [] -> fingerprintAfter certs f0 = f0.
Proof.
  revert f0. induction certs as [|c certs IH]; intros f0 H; [reflexivity|].
  cbn in *. destruct (selfSigned c); [discriminate|]. now apply IH.
Qed.

Lemma fingerprintAfter_unique (certs : list certificate) (r : certificate) (f0 : option string) :
  List.filter selfSigned certs = [r] -> fingerprintAfter certs f0 = Some (fingerprintOf r).
Proof.
  revert f0. induction certs as [|c certs IH]; intros f0 H; [discriminate|].
  cbn in *. destruct (selfSigned c).
  - injection H as -> Hnil. now apply fingerprintAfter_none.
  - now apply IH.
Qed.

(** A fingerprint, once computed, is the uppercase hex SHA-256 of one of
    the certificates. *)
Lemma fingerprintAfter_some (certs : list certificate) (f0 : option string) (fp : string) :
  fingerprintAfter certs f0 = Some fp ->
  f0 = Some fp \/ exists c, In c certs /\ fp = fingerprintOf c.
Proof.
  revert f0. induction certs as [|c certs IH]; intros f0 H; [now left|].
  cbn in H. apply IH in H as [H|(c' & Hin & ->)].
  - destruct (selfSigned c); [|now left].
    injection H as <-. right. exists c. split; [now left | reflexivity].
  - right. exists c'. split; [now right | reflexivity].
Qed.

Lemma scan_shape (c0 : certificate) (rest : list certificate) :
  scanCerts 0 (c0 :: rest) emptyScan =
  mkScan (entryOf c0) (rootAfter rest emptyEntry)
         (map entryOf (intermediatesOf rest)) (fingerprintAfter rest None).
Proof. cbn [scanCerts]. now rewrite scanCerts_past_leaf. Qed.

Lemma pushIntermediates_filter (b : bool) (r : certEntry) (inter : list certEntry) :
  forall chain,
    pushIntermediates b r inter chain =
    chain ++ map pem (List.filter (fun e => Bool.eqb (sortCertificate e r) b) inter).
Proof.
  induction inter as [|e inter IH]; intros chain; cbn.
  - now rewrite app_nil_r.
  - rewrite IH. destruct (Bool.eqb (sortCertificate e r) b); cbn; [|reflexivity].
    now rewrite <- app_assoc.
Qed.

(** [sortCertificate] on the entries of two certificates compares the
    issuer hash of the first with the subject hash of the second. *)
Lemma sortCertificate_entryOf (c r : certificate) :
  sortCertificate (entryOf c) (entryOf r) = String.eqb (certIssuerHash c) (certSubjectHash r).
Proof. unfold sortCertificate. cbn. now destruct (String.eqb _ _). Qed.

Lemma orderChain_with_root (c0 r : certificate) (rest : list certificate) :
  List.filter selfSigned rest = [r] ->
  orderChain (scanCerts 0 (c0 :: rest) emptyScan) =
  [Some (trimPem c0)] ++ side false r (intermediatesOf rest)
    ++ side true r (intermediatesOf rest) ++ [Some (trimPem r)].
Proof.
  intros Hr. rewrite scan_shape. unfold orderChain. cbn [leaf root interObj pem].
  rewrite (rootAfter_unique _ _ _ Hr). rewrite !pushIntermediates_filter.
  rewrite !filter_map_comm, !map_map. unfold side. cbn [entryOf pem].
  rewrite <- !app_assoc.
  do 2 f_equal; [|f_equal];
    (f_equal; apply filter_ext; intros c; now rewrite sortCertificate_entryOf).
Qed.

End Chain.

(** ** The engine *)

Ltac unfold_monad :=
  unfold bind, ret, throw, get, modify, output, generateNonce, randomBytes, reference in *.

Section Engine.

Context {host : Host}.
Variable rcsConfig : rcsConfiguration.
Variable db : bool.

Lemma remoteConfiguration_payload fwNonce cindex st p st' :
  remoteConfiguration rcsConfig fwNonce cindex st = (Normal (Value p), st') <->
  resolution rcsConfig fwNonce cindex st st' p.
Proof.
  split.
  - unfold remoteConfiguration. unfold bind at 1. unfold get.
    destruct (connection st !! cindex) as [conn|] eqn:Hconn; [|discriminate].
    unfold bind at 1. fold (requestedDomain conn).
    destruct (getProvisioningCertObj _ _ _ st) as [[[t|o]|e] st1] eqn:Hcerts;
      try discriminate.
    unfold bind at 1, generateNonce, randomBytes. fold (consoleNonceAt st1).
    destruct fwNonce as [fw|]; cbn [Buffer_concat]; [|discriminate].
    rewrite app_nil_r.
    destruct (signString _ _) as [t|sig] eqn:Hsig; [discriminate|].
    unfold bind at 1.
    destruct (amtPasswordOf _ _ _) as [[[t|pw]|e] st2] eqn:Hpw; try discriminate.
    unfold bind at 1.
    destruct (profileScriptOf _ _ _) as [[script|e] st3] eqn:Hscript; [|discriminate].
    unfold ret. intros [= <- <-].
    now econstructor; eauto.
  - intros [conn o st1 fw sig pw st2 Hconn Hcerts -> Hsig Hpw Hscript Hp].
    unfold remoteConfiguration. unfold bind at 1. unfold get. rewrite Hconn.
    unfold bind at 1. fold (requestedDomain conn). rewrite Hcerts.
    unfold bind at 1, generateNonce, randomBytes. fold (consoleNonceAt st1).
    cbn [Buffer_concat]. rewrite app_nil_r, Hsig.
    unfold bind at 1. fold (advanceEntropy 20 st1). rewrite Hpw.
    unfold bind at 1. rewrite Hscript. unfold ret. now rewrite Hp at 2.
Qed.

(** *** Domain resolution *)

Lemma find_absent {A : Type} (f : A -> bool) (l : list A) :
  Forall (fun x => f x = false) l -> find f l = None.
Proof.
  induction 1 as [|x l Hx _ IH]; [reflexivity|]. cbn. now rewrite Hx.
Qed.

Lemma truthy_false (v : option string) :
  truthy v = false <-> v = None \/ v = Some "".
Proof.
  destruct v as [s|]; cbn.
  - destruct (String.eqb_spec s ""); cbn; split; intros H; subst; auto;
      try discriminate.
    destruct H as [H|H]; [discriminate | congruence].
  - split; auto.
Qed.

Lemma truthy_true (s : string) : s <> "" -> truthy (Some s) = true.
Proof. intros H. cbn. now destruct (String.eqb_spec s ""). Qed.

Lemma getProvisioningCertObj_missing (domain : option string) (index : nat) (st : rcsState) :
  truthy domain = false ->
  getProvisioningCertObj rcsConfig domain index st = (Normal (ErrorText errDomainMissing), st).
Proof. intros H. unfold getProvisioningCertObj. now rewrite H. Qed.

Lemma getProvisioningCertObj_mismatch (d : string) (index : nat) (st : rcsState) :
  d <> "" ->
  Forall (fun e => DomainSuffix e <> d) (AMTDomains rcsConfig) ->
  getProvisioningCertObj rcsConfig (Some d) index st
  = (Normal (ErrorText errDomainMismatch), logConsole errDomainMismatch st).
Proof.
  intros Hd Hnone. unfold getProvisioningCertObj. rewrite truthy_true by exact Hd.
  cbn [negb]. rewrite find_absent; [reflexivity|].
  eapply Forall_impl; [exact Hnone|]. cbn. intros e He.
  now destruct (String.eqb_spec (DomainSuffix e) d).
Qed.

(** *** Trust validation *)

Lemma looseEq_Some (a : option string) (fp : string) :
  looseEq a (Some fp) = true <-> a = Some fp.
Proof.
  destruct a as [x|]; cbn; [|split; discriminate].
  destruct (String.eqb_spec x fp); split; intros H; subst; auto; try discriminate.
  congruence.
Qed.

Lemma trustedRoot_In (hashes : list hashEntry) (fp : string) :
  trustedRoot hashes (Some fp) = true <-> In (Some fp) (map certificateHash hashes).
Proof.
  induction hashes as [|h hashes IH]; cbn; [split; [discriminate | tauto]|].
  destruct (looseEq (certificateHash h) (Some fp)) eqn:E.
  - apply looseEq_Some in E. split; auto.
  - rewrite IH. split; [auto|]. intros [H|H]; [|exact H].
    apply looseEq_Some in H. congruence.
Qed.

Lemma trustedRoot_undefined (hashes : list hashEntry) :
  Forall (fun h => certificateHash h <> None) hashes -> trustedRoot hashes None = false.
Proof.
  induction 1 as [|h hashes Hh _ IH]; [reflexivity|]. cbn.
  destruct (certificateHash h); [exact IH | congruence].
Qed.

Lemma dumpPfx_eval (pfxobj : pfxObject) (index : nat) (st : rcsState)
    (conn : connectionState) (hashes : list hashEntry) :
  connection st !! index = Some conn ->
  certHashes conn = Some hashes ->
  dumpPfx pfxobj index st =
  ( Normal (if trustedRoot hashes (fingerprint (scanCerts 0 (pfxCerts pfxobj) emptyScan))
            then Value (assemble pfxobj) else ErrorText errUntrusted), st ).
Proof.
  intros Hconn Hhashes. unfold dumpPfx. unfold_monad. rewrite Hconn, Hhashes.
  now destruct (trustedRoot _ _).
Qed.

Lemma fingerprint_origin (certs : list certificate) (fp : string) :
  fingerprint (scanCerts 0 certs emptyScan) = Some fp ->
  exists c, In c certs /\ fp = fingerprintOf c.
Proof.
  destruct certs as [|c0 rest]; [discriminate|].
  rewrite scan_shape. cbn [fingerprint]. intros H.
  apply fingerprintAfter_some in H as [H|(c & Hin & ->)]; [discriminate|].
  exists c. split; [now right | reflexivity].
Qed.

Lemma fingerprint_without_root (certs : list certificate) :
  Forall (fun c => selfSigned c = false) certs ->
  fingerprint (scanCerts 0 certs emptyScan) = None.
Proof.
  intros H. destruct certs as [|c0 rest]; [reflexivity|].
  rewrite scan_shape. cbn [fingerprint]. apply fingerprintAfter_none.
  apply filter_none. now inversion H.
Qed.

(** *** Failures are error texts of the table; nothing reaches the transport *)

Ltac unfold_engine :=
  unfold remoteConfiguration, getProvisioningCertObj, convertPfxToObject, dumpPfx,
    amtPasswordOf, profileScriptOf in *;
  unfold_monad.

Lemma getProvisioningCertObj_errorText domain index st t st' :
  getProvisioningCertObj rcsConfig domain index st = (Normal (ErrorText t), st') ->
  errorKindOf t <> None.
Proof.
  unfold_engine. intros H. repeat case_match; simplify_eq; discriminate.
Qed.

Lemma amtPasswordOf_errorText conn st t st' :
  amtPasswordOf rcsConfig conn st = (Normal (ErrorText t), st') ->
  t = errProfileMismatch.
Proof.
  unfold_engine. intros H. repeat case_match; now simplify_eq.
Qed.

Lemma signString_errorText message key t :
  signString message key = ErrorText t -> t = errSignature.
Proof.
  unfold signString. intros H. repeat case_match; now simplify_eq.
Qed.

Lemma remoteConfiguration_errorText fwNonce cindex st t st' :
  remoteConfiguration rcsConfig fwNonce cindex st = (Normal (ErrorText t), st') ->
  errorKindOf t <> None.
Proof.
  unfold remoteConfiguration. unfold bind at 1. unfold get.
  destruct (connection st !! cindex) as [conn|]; [|intros [= <- <-]; discriminate].
  unfold bind at 1.
  destruct (getProvisioningCertObj _ _ _ st) as [[[t0|o]|e] st1] eqn:Hcerts;
    [intros [= <- <-]; eapply getProvisioningCertObj_errorText; eauto | | discriminate].
  unfold bind at 1, generateNonce, randomBytes.
  destruct (Buffer_concat _) as [arr|]; [|discriminate].
  destruct (signString _ _) as [t0|sig] eqn:Hsig.
  { intros [= <- <-]. apply signString_errorText in Hsig as ->. discriminate. }
  unfold bind at 1.
  destruct (amtPasswordOf _ _ _) as [[[t0|pw]|e] st2] eqn:Hpw; try discriminate.
  { intros [= <- <-]. apply amtPasswordOf_errorText in Hpw as ->. discriminate. }
  unfold bind at 1. destruct (profileScriptOf _ _ _) as [[script|e] st3]; discriminate.
Qed.

Lemma silent_ret {A : Type} (a : A) : silent (ret a).
Proof. now intros st. Qed.

Lemma silent_throw {A : Type} (e : exn) : silent (throw (A := A) e).
Proof. now intros st. Qed.

Lemma silent_bind {A B : Type} (m : M A) (k : A -> M B) :
  silent m -> (forall a, silent (k a)) -> silent (bind m k).
Proof.
  intros Hm Hk st. unfold bind. specialize (Hm st).
  destruct (m st) as [[a|e] st1]; cbn in *; [|exact Hm].
  now rewrite Hk.
Qed.

Lemma silent_get : silent get.
Proof. now intros st. Qed.

Lemma silent_output (msg : string) : silent (output msg).
Proof. now intros st. Qed.

Lemma silent_logFs (c : fsCall) : silent (modify (logFs c)).
Proof. now intros st. Qed.

Lemma silent_logDb (c : connectionState) : silent (modify (logDb c)).
Proof. now intros st. Qed.

Lemma silent_setConnection f : silent (modify (setConnection f)).
Proof. now intros st. Qed.

Lemma silent_randomBytes (n : nat) : silent (randomBytes n).
Proof. now intros st. Qed.

Lemma silent_reference (locals : list string) (name : string) : silent (reference locals name).
Proof. unfold reference. destruct (inScope locals name); [apply silent_ret | apply silent_throw]. Qed.

Create HintDb silent.
#[local] Hint Resolve silent_ret silent_throw silent_get silent_output silent_logFs
  silent_logDb silent_setConnection silent_randomBytes silent_reference : silent.

Ltac silence :=
  repeat first
    [ progress auto with silent
    | apply silent_bind; [|intros ?]
    | match goal with |- silent (match ?x with _ => _ end) => destruct x end
    | match goal with |- silent (if ?x then _ else _) => destruct x end ].

Lemma silent_convertPfxToObject pfxpath passphrase :
  silent (convertPfxToObject pfxpath passphrase).
Proof. unfold convertPfxToObject. silence. Qed.

Lemma silent_dumpPfx pfxobj index : silent (dumpPfx pfxobj index).
Proof. unfold dumpPfx. cbv zeta. silence. Qed.

#[local] Hint Resolve silent_convertPfxToObject silent_dumpPfx : silent.

Lemma silent_getProvisioningCertObj domain index :
  silent (getProvisioningCertObj rcsConfig domain index).
Proof. unfold getProvisioningCertObj. cbv zeta. silence. Qed.

Lemma silent_amtPasswordOf conn : silent (amtPasswordOf rcsConfig conn).
Proof. unfold amtPasswordOf. silence. Qed.

Lemma silent_profileScriptOf cindex : silent (profileScriptOf rcsConfig cindex).
Proof. unfold profileScriptOf. silence. Qed.

#[local] Hint Resolve silent_getProvisioningCertObj silent_amtPasswordOf
  silent_profileScriptOf : silent.

Lemma silent_remoteConfiguration fwNonce cindex :
  silent (remoteConfiguration rcsConfig fwNonce cindex).
Proof. unfold remoteConfiguration, generateNonce. cbv zeta. silence. Qed.

#[local] Hint Resolve silent_remoteConfiguration : silent.

(** *** The dispatcher *)

Lemma bind_throws {A B : Type} (m : M A) (k : A -> M B) (st st' : rcsState) (e : exn) :
  m st = (Throw e, st') -> bind m k st = (Throw e, st').
Proof. intros H. unfold bind. now rewrite H. Qed.

Lemma bind_normal {A B : Type} (m : M A) (k : A -> M B) (st st' : rcsState) (a : A) :
  m st = (Normal a, st') -> bind m k st = k a st'.
Proof. intros H. unfold bind. now rewrite H. Qed.

(** [status] and [sendMessage] are bound in no enclosing scope. *)
Lemma status_unbound : inScope ["index"; "message"] "status" = false.
Proof. reflexivity. Qed.

Lemma sendMessage_unbound : inScope handlerLocals "sendMessage" = false.
Proof. reflexivity. Qed.

Lemma sendMessage_throws (index : nat) (message : orError rcsPayload) (st : rcsState) :
  exists st',
    sendMessage index message st = (Throw (ReferenceError "status"), st')
    /\ sent st' = sent st /\ connection st' = connection st.
Proof.
  unfold sendMessage, reference. rewrite status_unbound. unfold_monad.
  destruct (wsServer st); eexists; (split; [reflexivity|]); now split.
Qed.

Lemma acmactivate_throws (m : message) (index : nat) (st : rcsState) :
  exists e st',
    acmactivate rcsConfig db m index st = (Throw e, st') /\ sent st' = sent st.
Proof.
  unfold acmactivate. unfold bind at 1. unfold get.
  destruct (connection st !! index) as [c|];
    [|eexists _, _; split; reflexivity].
  set (c' := mergeMessage m c).
  unfold bind at 1. unfold modify at 1.
  set (st1 := setConnection _ st).
  assert (Hdb : exists st2, (if db then modify (logDb c') else ret tt) st1 = (Normal tt, st2)
                            /\ sent st2 = sent st).
  { destruct db; eexists; split; reflexivity. }
  destruct Hdb as (st2 & Hdb & Hsent2).
  rewrite (bind_normal _ _ _ _ _ Hdb).
  pose proof (silent_remoteConfiguration (fwNonce c') index st2) as Hrc.
  unfold bind at 1.
  destruct (remoteConfiguration rcsConfig (fwNonce c') index st2) as [[rcsObj|e] st3];
    cbn [snd] in Hrc; [|eexists _, _; split; [reflexivity | congruence]].
  destruct rcsObj as [t|p].
  - unfold bind at 1. unfold bind at 1. unfold output, modify, reference.
    rewrite sendMessage_unbound. unfold throw.
    eexists _, _; split; [reflexivity | cbn; congruence].
  - unfold bind at 1. unfold ret.
    destruct (sendMessage_throws index (Value p) st3) as (st4 & -> & Hsent4 & _).
    eexists _, _; split; [reflexivity | congruence].
Qed.

Lemma ensure_connection (index : nat) (st : rcsState) :
  exists st1,
    (match connection st !! index with
     | None => modify (setConnection <[index := emptyConnection]>)
     | Some _ => ret tt
     end) st = (Normal tt, st1)
    /\ sent st1 = sent st.
Proof. destruct (connection st !! index); eexists; split; reflexivity. Qed.

Lemma handler_acmactivate (event : string) (frame : wsMessage) (m : message)
    (index : nat) (st : rcsState) :
  (frame = Structured m /\ event = "acmactivate")
  \/ (exists s, frame = Text s /\ JSON_parse s = Some (ParsedValue m)
                 /\ m_action m = Some "acmactivate") ->
  exists e st',
    wsConnectionHandler rcsConfig db event frame index st = (Throw e, st')
    /\ sent st' = sent st.
Proof.
  intros Hcase. unfold wsConnectionHandler. unfold bind at 1. unfold get.
  destruct (ensure_connection index st) as (st1 & Hensure & Hsent1).
  rewrite (bind_normal _ _ _ _ _ Hensure).
  destruct Hcase as [[-> ->]|(s & -> & Hparse & Haction)].
  - unfold bind at 1. unfold ret at 1. cbn [fst snd].
    change (String.eqb "acmactivate" "acmactivate") with true. cbv iota.
    destruct (acmactivate_throws m index st1) as (e & st' & -> & Hsent).
    eexists _, _; split; [reflexivity | congruence].
  - rewrite Hparse, Haction. unfold bind at 1. unfold ret at 1.
    change (truthy (Some "acmactivate")) with true. cbv iota. cbn [fst snd jsString].
    change (String.eqb "acmactivate" "acmactivate") with true. cbv iota.
    destruct (acmactivate_throws m index st1) as (e & st' & -> & Hsent).
    eexists _, _; split; [reflexivity | congruence].
Qed.

Lemma handler_not_json (event s : string) (index : nat) (st : rcsState) :
  JSON_parse s = None ->
  exists st',
    wsConnectionHandler rcsConfig db event (Text s) index st
    = (Throw (ReferenceError "status"), st')
    /\ sent st' = sent st.
Proof.
  intros Hparse. unfold wsConnectionHandler. unfold bind at 1. unfold get.
  destruct (ensure_connection index st) as (st1 & Hensure & Hsent1).
  rewrite (bind_normal _ _ _ _ _ Hensure). rewrite Hparse.
  unfold bind at 1. unfold bind at 1. unfold output at 1, modify at 1.
  unfold bind at 1.
  destruct (sendMessage_throws index (ErrorText errInvalidMessage)
              (logConsole errInvalidMessage st1)) as (st2 & -> & Hsent2 & _).
  eexists; split; [reflexivity|]. rewrite Hsent2. exact Hsent1.
Qed.

(** *** Profile resolution and the script lookup *)

Lemma amtPasswordOf_default (conn : connectionState) (c0 : amtConfiguration)
    (rest : list amtConfiguration) (st : rcsState) :
  truthy (profile conn) = false ->
  AMTConfigurations rcsConfig = c0 :: rest ->
  amtPasswordOf rcsConfig conn st = (Normal (Value (AMTPassword c0)), st).
Proof.
  intros Hp Hc. unfold amtPasswordOf. rewrite Hp, Hc. reflexivity.
Qed.

Lemma amtPasswordOf_unknown (conn : connectionState) (name : string) (st : rcsState) :
  profile conn = Some name -> name <> "" ->
  Forall (fun c => ProfileName c <> name) (AMTConfigurations rcsConfig) ->
  amtPasswordOf rcsConfig conn st
  = (Normal (ErrorText errProfileMismatch), logConsole errProfileMismatch st).
Proof.
  intros Hp Hname Hnone. unfold amtPasswordOf. rewrite Hp, truthy_true by exact Hname.
  cbn [negb]. rewrite find_absent; [reflexivity|].
  eapply Forall_impl; [exact Hnone|]. cbn. intros c Hc.
  now destruct (String.eqb_spec (ProfileName c) name).
Qed.

(** The resolved password does not depend on the state it is resolved in. *)
Lemma amtPasswordOf_stable (conn : connectionState) (sa sb sc : rcsState) (r : orError string) :
  amtPasswordOf rcsConfig conn sa = (Normal r, sb) ->
  exists sd, amtPasswordOf rcsConfig conn sc = (Normal r, sd).
Proof.
  unfold amtPasswordOf. unfold_monad. intros H.
  repeat case_match; simplify_eq; eexists; reflexivity.
Qed.

Lemma profileScriptOf_total (cindex : nat) (entry : amtConfiguration) (st : rcsState) :
  AMTConfigurations rcsConfig !! cindex = Some entry ->
  exists script st', profileScriptOf rcsConfig cindex st = (Normal script, st').
Proof.
  intros H. unfold profileScriptOf. rewrite H. unfold_monad.
  repeat case_match; eexists _, _; reflexivity.
Qed.

(** When [AMTConfigurations[cindex]] exists and its script is [null],
    empty or unreadable, the script is [null]. *)
Lemma profileScriptOf_null (cindex : nat) (entry : amtConfiguration) (st : rcsState) :
  AMTConfigurations rcsConfig !! cindex = Some entry ->
  (ConfigurationScript entry = None \/ ConfigurationScript entry = Some ""
   \/ exists path, ConfigurationScript entry = Some path /\ fs_readFileSync_utf8 path = None) ->
  exists st', profileScriptOf rcsConfig cindex st = (Normal None, st').
Proof.
  intros H Hs. unfold profileScriptOf. rewrite H. unfold_monad.
  destruct Hs as [->|[->|(path & -> & Hread)]]; try (eexists; reflexivity).
  destruct (String.eqb path ""); [eexists; reflexivity|].
  rewrite Hread. eexists; reflexivity.
Qed.

Lemma profileScriptOf_out_of_range (cindex : nat) (st : rcsState) :
  length (AMTConfigurations rcsConfig) <= cindex ->
  profileScriptOf rcsConfig cindex st
  = (Throw (TypeError "obj.rcsConfig.AMTConfigurations[cindex] is undefined"), st).
Proof.
  intros H. unfold profileScriptOf. now rewrite (lookup_ge_None_2 _ _ H).
Qed.

Lemma getProvisioningCertObj_value domain index st o st' :
  getProvisioningCertObj rcsConfig domain index st = (Normal (Value o), st') ->
  exists pfxobj, o = assemble pfxobj.
Proof.
  unfold_engine. intros H. repeat case_match; simplify_eq; eexists; reflexivity.
Qed.

End Engine.

(** ** The claims *)

Section Claims.

Context {host : Host}.
Variable rcsConfig : rcsConfiguration.
Variable db : bool.

(** C1, in the form the code implements. For a computed root fingerprint
    [fp] - the uppercase hex SHA-256 of a certificate of the container -
    and a recorded hash list, [dumpPfx] returns the certificate object if
    and only if [fp] equals, as it stands, the [certificateHash] of some
    entry; the entries are compared as the device sent them. Otherwise,
    an empty list included, it returns the untrusted-certificate error,
    whose text is fixed and does not include [fp]. *)
Theorem C1_trust_validation_exact_match (pfxobj : pfxObject) (index : nat)
    (st : rcsState) (conn : connectionState) (hashes : list hashEntry) (fp : string) :
  connection st !! index = Some conn ->
  certHashes conn = Some hashes ->
  fingerprint (scanCerts 0 (pfxCerts pfxobj) emptyScan) = Some fp ->
  (exists c, In c (pfxCerts pfxobj)
             /\ fp = toUpperCase (toHex (forge_sha256 (certDer c))))
  /\ (dumpPfx pfxobj index st = (Normal (Value (assemble pfxobj)), st)
      <-> In (Some fp) (map certificateHash hashes))
  /\ (~ In (Some fp) (map certificateHash hashes) ->
      dumpPfx pfxobj index st = (Normal (ErrorText errUntrusted), st))
  /\ errorKindOf errUntrusted = Some UntrustedCertificateError
  /\ includes errUntrusted fp = false.
Proof.
  intros Hconn Hhashes Hfp.
  pose proof (dumpPfx_eval pfxobj index st conn hashes Hconn Hhashes) as Heval.
  rewrite Hfp in Heval.
  destruct (fingerprint_origin _ _ Hfp) as (c & Hin & Hc).
  split; [exists c; split; [exact Hin | exact Hc]|].
  split; [|split; [|split; [reflexivity|]]].
  - rewrite Heval, <- trustedRoot_In.
    destruct (trustedRoot hashes (Some fp)); split; congruence.
  - intros Hnot. rewrite Heval.
    destruct (trustedRoot hashes (Some fp)) eqn:E; [|reflexivity].
    apply trustedRoot_In in E. contradiction.
  - rewrite Hc. apply includes_fingerprint; [reflexivity|].
    intros Hnil. pose proof (forge_sha256_length (certDer c)) as Hlen.
    rewrite Hnil in Hlen. discriminate.
Qed.

(** C3. Let the container hold a first certificate (the leaf) followed,
    in any order [rest], by one self-signed certificate [r] and at most
    two certificates that are not self-signed. Then the chain is the leaf
    PEM, the intermediates whose issuer hash differs from the subject hash
    of [r] in their input order, the intermediates whose issuer hash
    equals it, and the PEM of [r] last; [dumpPfx] returns no other chain. *)
Theorem C3_chain_order (leafCert r : certificate) (inters rest : list certificate)
    (keys : list privateKeyObj) :
  selfSigned r = true ->
  Forall (fun c => selfSigned c = false) inters ->
  length inters <= 2 ->
  Permutation rest (r :: inters) ->
  let intermediates := intermediatesOf rest in
  let chain :=
    [Some (trimPem leafCert)] ++ side false r intermediates
      ++ side true r intermediates ++ [Some (trimPem r)] in
  Permutation intermediates inters
  /\ certChain (assemble (mkPfx (leafCert :: rest) keys)) = chain
  /\ forall index st o st',
       dumpPfx (mkPfx (leafCert :: rest) keys) index st = (Normal (Value o), st') ->
       certChain o = chain.
Proof.
  intros Hr Hinters _ Hperm intermediates chain.
  assert (Hnot : List.filter (fun c => negb (selfSigned c)) inters = inters).
  { clear Hperm. induction Hinters as [|c l Hc _ IH]; [reflexivity|].
    cbn. rewrite Hc. cbn. now rewrite IH. }
  assert (Hroot : List.filter selfSigned rest = [r]).
  { apply (filter_bool_Permutation selfSigned) in Hperm. cbn in Hperm.
    rewrite Hr, (filter_none _ _ Hinters) in Hperm.
    symmetry in Hperm. now apply Permutation_length_1_inv in Hperm. }
  assert (Hchain : certChain (assemble (mkPfx (leafCert :: rest) keys)) = chain).
  { unfold assemble. cbn [certChain pfxCerts]. now apply orderChain_with_root. }
  split; [|split; [exact Hchain|]].
  - unfold intermediates, intermediatesOf.
    apply (filter_bool_Permutation (fun c => negb (selfSigned c))) in Hperm.
    cbn in Hperm. rewrite Hr in Hperm. cbn in Hperm. now rewrite Hnot in Hperm.
  - intros index st o st' H. unfold dumpPfx in H. unfold_monad.
    repeat case_match; simplify_eq. exact Hchain.
Qed.

(** C4, in the form the code implements. The file has no
    incomplete-chain failure. A container without self-signed certificate fails the trust check as soon as every
    recorded hash entry carries a [certificateHash]: [dumpPfx] returns the
    untrusted-certificate error and no chain. A container without key
    gives a certificate object without [privateKey], and the request then
    fails with the signature error. *)
Theorem C4_incomplete_container_failures :
  (forall pfxobj index st conn hashes,
      connection st !! index = Some conn ->
      certHashes conn = Some hashes ->
      Forall (fun c => selfSigned c = false) (pfxCerts pfxobj) ->
      Forall (fun h => certificateHash h <> None) hashes ->
      dumpPfx pfxobj index st = (Normal (ErrorText errUntrusted), st))
  /\ (forall pfxobj, pfxKeys pfxobj = [] -> privateKey (assemble pfxobj) = None)
  /\ (forall fw cindex st conn o st1,
        connection st !! cindex = Some conn ->
        getProvisioningCertObj rcsConfig (requestedDomain conn) cindex st
        = (Normal (Value o), st1) ->
        privateKey o = None ->
        remoteConfiguration rcsConfig (Some fw) cindex st
        = (Normal (ErrorText errSignature), advanceEntropy 20 st1))
  /\ (forall text, errorKindOf text <> Some IncompleteChainError).
Proof.
  split; [|split; [|split]].
  - intros pfxobj index st conn hashes Hconn Hhashes Hcerts Hdefined.
    rewrite (dumpPfx_eval _ _ _ _ _ Hconn Hhashes).
    rewrite (fingerprint_without_root _ Hcerts).
    now rewrite (trustedRoot_undefined _ Hdefined).
  - intros pfxobj Hkeys. unfold assemble. cbn. now rewrite Hkeys.
  - intros fw cindex st conn o st1 Hconn Hcerts Hkey.
    unfold remoteConfiguration. unfold bind at 1. unfold get. rewrite Hconn.
    unfold bind at 1. fold (requestedDomain conn). rewrite Hcerts.
    unfold bind at 1, generateNonce, randomBytes. cbn [Buffer_concat].
    rewrite Hkey. reflexivity.
  - exact errorKindOf_never_incomplete.
Qed.

(** C5. In every payload returned by [remoteConfiguration] the console
    nonce is the next 20 bytes of the random source, never handed out
    again; the signature is the SHA-256 signature, under the PEM of the
    private key of the certificate object, of the firmware nonce followed
    by the console nonce; the payload carries both in base64. *)
Theorem C5_nonce_and_signature (fwNonce : option buffer) (cindex : nat)
    (st st' : rcsState) (p : rcsPayload) :
  remoteConfiguration rcsConfig fwNonce cindex st = (Normal (Value p), st') ->
  exists conn o st1 fw key keyPem sign,
    connection st !! cindex = Some conn
    /\ getProvisioningCertObj rcsConfig (requestedDomain conn) cindex st
       = (Normal (Value o), st1)
    /\ fwNonce = Some fw
    /\ privateKey o = Some key
    /\ forge_privateKeyToPem key = Some keyPem
    /\ length (consoleNonceAt st1) = 20
    /\ consoleNonceAt st1 = map crypto_entropy (seq (entropyPos st1) 20)
    /\ entropyPos st' = entropyPos st1 + 20
    /\ crypto_sign_sha256 (fw ++ consoleNonceAt st1) keyPem = Some sign
    /\ nonce p = base64_encode (consoleNonceAt st1)
    /\ signature p = base64_encode sign.
Proof.
  intros H. apply remoteConfiguration_payload in H
    as [conn o st1 fw sig pw st2 Hconn Hcerts Hfw Hsig Hpw Hscript Hp].
  unfold signString in Hsig.
  destruct (privateKey o) as [key|] eqn:Hkey; [|discriminate].
  destruct (forge_privateKeyToPem key) as [keyPem|] eqn:Hpem; [|discriminate].
  destruct (crypto_sign_sha256 _ keyPem) as [sign|] eqn:Hsign; [|discriminate].
  injection Hsig as <-.
  exists conn, o, st1, fw, key, keyPem, sign.
  assert (Hpos : entropyPos st' = entropyPos st1 + 20).
  { unfold amtPasswordOf, profileScriptOf in *. unfold_monad.
    repeat case_match; simplify_eq; reflexivity. }
  rewrite Hp. cbn [nonce signature].
  repeat split; auto.
Qed.

(** C7. On a connection without domain suffix (absent or empty) the
    request fails with the missing-domain error. With a suffix that no
    [DomainSuffix] of the configuration equals, it returns exactly the
    domain-mismatch error text, after logging it, and touches no file. *)
Theorem C7_domain_resolution (fwNonce : option buffer) (cindex : nat)
    (st : rcsState) (conn : connectionState) :
  connection st !! cindex = Some conn ->
  (dnsSuffix conn = None \/ dnsSuffix conn = Some "" ->
   remoteConfiguration rcsConfig fwNonce cindex st
   = (Normal (ErrorText "AMT domain suffix not specified."), st)
   /\ errorKindOf "AMT domain suffix not specified." = Some MissingDomainError)
  /\ (forall d,
        dnsSuffix conn = Some d -> d <> "" ->
        Forall (fun e => DomainSuffix e <> d) (AMTDomains rcsConfig) ->
        let text :=
          "Specified AMT domain suffix does not match list of available AMT domain suffixes." in
        remoteConfiguration rcsConfig fwNonce cindex st
        = (Normal (ErrorText text), logConsole text st)
        /\ fsCalls (logConsole text st) = fsCalls st
        /\ errorKindOf text = Some UnknownDomainError).
Proof.
  intros Hconn. split.
  - intros Hnone. apply truthy_false in Hnone. split; [|reflexivity].
    unfold remoteConfiguration. unfold bind at 1. unfold get. rewrite Hconn.
    unfold bind at 1. rewrite Hnone.
    now rewrite getProvisioningCertObj_missing.
  - intros d Hd Hne Hnomatch text. split; [|split; reflexivity].
    unfold remoteConfiguration. unfold bind at 1. unfold get. rewrite Hconn.
    unfold bind at 1. rewrite Hd, truthy_true by exact Hne.
    now rewrite getProvisioningCertObj_mismatch.
Qed.

(** C8. Without profile name on the connection (absent, [null] or empty)
    the password is the [AMTPassword] of the first entry of
    [AMTConfigurations], with no error and no log line; the payload, which
    is returned once certificate, signature and script lookup go through,
    carries the digest of that password. With a profile name that no
    [ProfileName] equals, resolution gives the unknown-profile error: the
    request returns it when certificate and signature went through, and
    returns no payload in any case. *)
Theorem C8_profile_resolution (conn : connectionState) :
  (profile conn = None \/ profile conn = Some "" ->
   forall c0 rest, AMTConfigurations rcsConfig = c0 :: rest ->
     (forall st, amtPasswordOf rcsConfig conn st = (Normal (Value (AMTPassword c0)), st))
     /\ (forall fwNonce cindex st p st',
          connection st !! cindex = Some conn ->
          remoteConfiguration rcsConfig fwNonce cindex st = (Normal (Value p), st') ->
          password p = toHex (crypto_md5 (digestInput conn (AMTPassword c0))))
     /\ (forall fw cindex st o st1 sig entry,
          connection st !! cindex = Some conn ->
          getProvisioningCertObj rcsConfig (requestedDomain conn) cindex st
          = (Normal (Value o), st1) ->
          signString (fw ++ consoleNonceAt st1) (privateKey o) = Value sig ->
          AMTConfigurations rcsConfig !! cindex = Some entry ->
          exists p st',
            remoteConfiguration rcsConfig (Some fw) cindex st = (Normal (Value p), st')
            /\ password p = toHex (crypto_md5 (digestInput conn (AMTPassword c0)))))
  /\ (forall name,
        profile conn = Some name -> name <> "" ->
        Forall (fun c => ProfileName c <> name) (AMTConfigurations rcsConfig) ->
        (forall st,
            amtPasswordOf rcsConfig conn st
            = (Normal (ErrorText errProfileMismatch), logConsole errProfileMismatch st))
        /\ errorKindOf errProfileMismatch = Some UnknownProfileError
        /\ (forall fw cindex st o st1 sig,
             connection st !! cindex = Some conn ->
             getProvisioningCertObj rcsConfig (requestedDomain conn) cindex st
             = (Normal (Value o), st1) ->
             signString (fw ++ consoleNonceAt st1) (privateKey o) = Value sig ->
             remoteConfiguration rcsConfig (Some fw) cindex st
             = (Normal (ErrorText errProfileMismatch),
                logConsole errProfileMismatch (advanceEntropy 20 st1)))
        /\ (forall fwNonce cindex st r st',
             connection st !! cindex = Some conn ->
             remoteConfiguration rcsConfig fwNonce cindex st = (Normal r, st') ->
             exists t, r = ErrorText t)).
Proof.
  split.
  - intros Hnone c0 rest Hcfg. apply truthy_false in Hnone.
    assert (Hpw : forall st,
               amtPasswordOf rcsConfig conn st = (Normal (Value (AMTPassword c0)), st)).
    { intros st. eapply amtPasswordOf_default; eauto. }
    split; [exact Hpw|]. split.
    + intros fwNonce cindex st p st' Hconn H.
      apply remoteConfiguration_payload in H
        as [conn' o st1 fw sig pw st2 Hconn' Hcerts Hfw Hsig Hpw' Hscript Hp].
      assert (conn' = conn) as -> by congruence.
      rewrite Hpw in Hpw'. injection Hpw' as <- <-.
      rewrite Hp. reflexivity.
    + intros fw cindex st o st1 sig entry Hconn Hcerts Hsig Hentry.
      destruct (profileScriptOf_total rcsConfig cindex entry (advanceEntropy 20 st1) Hentry)
        as (script & st' & Hscript).
      eexists (mkPayload _ _ _ _ _ script), st'. split; [|reflexivity].
      apply remoteConfiguration_payload.
      econstructor; eauto.
  - intros name Hname Hne Hnomatch.
    assert (Hpw : forall st,
               amtPasswordOf rcsConfig conn st
               = (Normal (ErrorText errProfileMismatch), logConsole errProfileMismatch st)).
    { intros st. eapply amtPasswordOf_unknown; eauto. }
    split; [exact Hpw|]. split; [reflexivity|]. split.
    + intros fw cindex st o st1 sig Hconn Hcerts Hsig.
      unfold remoteConfiguration. unfold bind at 1. unfold get. rewrite Hconn.
      unfold bind at 1. fold (requestedDomain conn). rewrite Hcerts.
      unfold bind at 1, generateNonce, randomBytes. fold (consoleNonceAt st1).
      cbn [Buffer_concat]. rewrite app_nil_r, Hsig.
      unfold bind at 1. fold (advanceEntropy 20 st1). now rewrite Hpw.
    + intros fwNonce cindex st r st' Hconn H. destruct r as [t|p]; [now exists t|].
      apply remoteConfiguration_payload in H
        as [conn' o st1 fw sig pw st2 Hconn' Hcerts Hfw Hsig Hpw' Hscript Hp].
      assert (conn' = conn) as -> by congruence.
      rewrite Hpw in Hpw'. discriminate.
Qed.

(** C9. In every payload returned for a connection whose digest realm is
    [R], the password is the hex MD5 digest of the string
    ['admin:' + R + ':' + P], where [P] is the AMT password resolved for
    the connection. *)
Theorem C9_password_digest (fwNonce : option buffer) (cindex : nat)
    (st st' : rcsState) (p : rcsPayload) (conn : connectionState) (R : string) :
  remoteConfiguration rcsConfig fwNonce cindex st = (Normal (Value p), st') ->
  connection st !! cindex = Some conn ->
  digestRealm conn = Some R ->
  exists P,
    (forall s, exists s', amtPasswordOf rcsConfig conn s = (Normal (Value P), s'))
    /\ password p = toHex (crypto_md5 ("admin:" +:+ R +:+ ":" +:+ P)).
Proof.
  intros H Hconn Hrealm. apply remoteConfiguration_payload in H
    as [conn' o st1 fw sig pw st2 Hconn' Hcerts Hfw Hsig Hpw Hscript Hp].
  assert (conn' = conn) as -> by congruence.
  exists pw. split.
  - intros s. eapply amtPasswordOf_stable; eauto.
  - rewrite Hp. cbn [password]. unfold digestInput. now rewrite Hrealm.
Qed.

(** C6, as the code behaves. A string frame that is not JSON ends the
    handler with [ReferenceError: status is not defined], thrown by
    [obj.sendMessage] while it reports the protocol error; every
    [acmactivate] request, given as an object or as a JSON string, ends
    the handler with an exception as well. In neither case is anything
    handed to the transport. *)
Theorem C6_handler_throws :
  (forall event s index st,
      JSON_parse s = None ->
      exists st',
        wsConnectionHandler rcsConfig db event (Text s) index st
        = (Throw (ReferenceError "status"), st')
        /\ sent st' = sent st)
  /\ (forall m index st,
        exists e st',
          wsConnectionHandler rcsConfig db "acmactivate" (Structured m) index st
          = (Throw e, st')
          /\ sent st' = sent st)
  /\ (forall event s m index st,
        JSON_parse s = Some (ParsedValue m) -> m_action m = Some "acmactivate" ->
        exists e st',
          wsConnectionHandler rcsConfig db event (Text s) index st = (Throw e, st')
          /\ sent st' = sent st).
Proof.
  split; [|split].
  - intros event s index st H. now apply handler_not_json.
  - intros m index st. eapply handler_acmactivate. left. split; reflexivity.
  - intros event s m index st Hparse Haction.
    eapply handler_acmactivate. right. exists s. repeat split; eauto.
Qed.

End Claims.

(** ** Worked requests in the test world *)

Import Demo.

Lemma C1_trust_validation_exact_match_witness :
  (dumpPfx fullChain 0 request = (Normal (Value (assemble fullChain)), request)
   <-> In (Some rootFingerprint) (map certificateHash [mkHash (Some rootFingerprint)]))
  /\ includes errUntrusted rootFingerprint = false.
Proof.
  assert (H1 : connection request !! 0 = Some trusting) by (vm_compute; reflexivity).
  assert (H2 : certHashes trusting = Some [mkHash (Some rootFingerprint)]) by reflexivity.
  assert (H3 : fingerprint (scanCerts 0 (pfxCerts fullChain) emptyScan) = Some rootFingerprint)
    by (vm_compute; reflexivity).
  destruct (C1_trust_validation_exact_match fullChain 0 request trusting _ _ H1 H2 H3)
    as (_ & Hiff & _ & _ & Hinc).
  split; assumption.
Defined.

(** C1 with both sides put in uppercase does not hold: the device sent
    the fingerprint of the root in
    lowercase, so the uppercase fingerprint is a member of the hashes put
    in uppercase, yet validation answers with the untrusted error. *)
Lemma C1_counterexample_lowercase_hash :
  let st := serving 0 (device "vprodemo.com" lowercaseHash) in
  fingerprint (scanCerts 0 (pfxCerts fullChain) emptyScan) = Some rootFingerprint
  /\ trustedAfterNormalization rootFingerprint [mkHash (Some lowercaseHash)]
  /\ dumpPfx fullChain 0 st = (Normal (ErrorText errUntrusted), st).
Proof.
  cbv zeta. split; [vm_compute; reflexivity|]. split.
  - left. vm_compute. reflexivity.
  - vm_compute. reflexivity.
Qed.

Lemma C3_chain_order_witness :
  certChain (assemble (mkPfx [leafCert; interB; rootCert; interA] [provisioningKey]))
  = [Some "LEAF"; Some "INTER-A"; Some "INTER-B"; Some "ROOT"].
Proof.
  assert (Hr : selfSigned rootCert = true) by reflexivity.
  assert (Hi : Forall (fun c => selfSigned c = false) [interA; interB])
    by (repeat constructor).
  assert (Hl : length [interA; interB] <= 2) by (cbn; lia).
  assert (Hp : Permutation [interB; rootCert; interA] (rootCert :: [interA; interB])).
  { eapply perm_trans; [apply perm_swap|]. apply perm_skip. apply perm_swap. }
  exact (proj1 (proj2 (C3_chain_order leafCert rootCert [interA; interB]
                         [interB; rootCert; interA] [provisioningKey] Hr Hi Hl Hp))).
Defined.

(** C4 with an incomplete-chain failure does not hold: a container
    without root makes the request end
    with the untrusted-certificate error, a container without key with
    the signature error; neither is an incomplete-chain failure. *)
Lemma C4_counterexample_untrusted_instead :
  let noRootRequest := serving 0 (device "noroot.example" rootFingerprint) in
  let noKeyRequest := serving 0 (device "nokey.example" rootFingerprint) in
  Forall (fun c => selfSigned c = false) (pfxCerts noRoot)
  /\ fst (remoteConfiguration config (Some firmwareNonce) 0 noRootRequest)
     = Normal (ErrorText errUntrusted)
  /\ errorKindOf errUntrusted = Some UntrustedCertificateError
  /\ pfxKeys noKey = []
  /\ fst (remoteConfiguration config (Some firmwareNonce) 0 noKeyRequest)
     = Normal (ErrorText errSignature)
  /\ errorKindOf errSignature = Some SignatureError.
Proof.
  cbv zeta. split; [repeat constructor|].
  repeat split; vm_compute; reflexivity.
Qed.

Lemma C4_incomplete_container_failures_witness :
  let st := serving 0 (device "noroot.example" rootFingerprint) in
  dumpPfx noRoot 0 st = (Normal (ErrorText errUntrusted), st)
  /\ privateKey (assemble noKey) = None.
Proof.
  cbv zeta.
  destruct (C4_incomplete_container_failures (host := world) config) as (Hroot & Hkey & _).
  split.
  - apply (Hroot noRoot 0 _ (device "noroot.example" rootFingerprint)
             [mkHash (Some rootFingerprint)]).
    + vm_compute; reflexivity.
    + reflexivity.
    + repeat constructor.
    + repeat constructor; discriminate.
  - apply Hkey. reflexivity.
Defined.

Lemma C5_nonce_and_signature_witness :
  exists conn o st1 fw key keyPem sign,
    connection request !! 0 = Some conn
    /\ getProvisioningCertObj config (requestedDomain conn) 0 request
       = (Normal (Value o), st1)
    /\ Some firmwareNonce = Some fw
    /\ privateKey o = Some key
    /\ forge_privateKeyToPem key = Some keyPem
    /\ length (consoleNonceAt st1) = 20
    /\ consoleNonceAt st1 = map crypto_entropy (seq (entropyPos st1) 20)
    /\ entropyPos (advanceEntropy 20 requestRead) = entropyPos st1 + 20
    /\ crypto_sign_sha256 (fw ++ consoleNonceAt st1) keyPem = Some sign
    /\ nonce reply = base64_encode (consoleNonceAt st1)
    /\ signature reply = base64_encode sign.
Proof.
  apply (C5_nonce_and_signature config (Some firmwareNonce) 0 request).
  vm_compute; reflexivity.
Defined.

Lemma C7_domain_resolution_witness :
  remoteConfiguration config None 0 (serving 0 emptyConnection)
  = (Normal (ErrorText "AMT domain suffix not specified."), serving 0 emptyConnection)
  /\ fst (remoteConfiguration config None 0
            (serving 0 (device "unknown.example" rootFingerprint)))
     = Normal (ErrorText
         "Specified AMT domain suffix does not match list of available AMT domain suffixes.").
Proof.
  split.
  - apply (C7_domain_resolution config None 0 (serving 0 emptyConnection) emptyConnection).
    + vm_compute; reflexivity.
    + left. reflexivity.
  - assert (H : connection (serving 0 (device "unknown.example" rootFingerprint)) !! 0
                = Some (device "unknown.example" rootFingerprint))
      by (vm_compute; reflexivity).
    destruct (proj2 (C7_domain_resolution config None 0 _ _ H) "unknown.example")
      as (Hrun & _).
    + reflexivity.
    + discriminate.
    + repeat constructor; discriminate.
    + rewrite Hrun. reflexivity.
Defined.

Lemma C8_profile_resolution_witness :
  amtPasswordOf config trusting request = (Normal (Value "pw1"), request)
  /\ amtPasswordOf config unknownProfile request
     = (Normal (ErrorText errProfileMismatch), logConsole errProfileMismatch request).
Proof.
  split.
  - apply (proj1 (C8_profile_resolution config trusting) (or_introl eq_refl)
             (mkProfile "default" "pw1" None) [] eq_refl).
  - apply (proj2 (C8_profile_resolution config unknownProfile) "kiosk" eq_refl).
    + discriminate.
    + repeat constructor; discriminate.
Defined.

Lemma C9_password_digest_witness :
  exists P,
    (forall s, exists s', amtPasswordOf config trusting s = (Normal (Value P), s'))
    /\ password reply
       = toHex (crypto_md5 ("admin:" +:+ "Digest:A4070000000000000000000000000000"
                            +:+ ":" +:+ P)).
Proof.
  apply (C9_password_digest config (Some firmwareNonce) 0 request
           (advanceEntropy 20 requestRead) reply trusting).
  - vm_compute; reflexivity.
  - vm_compute; reflexivity.
  - reflexivity.
Defined.

Lemma C6_handler_throws_witness :
  exists st',
    wsConnectionHandler config false "message" (Text "not json") 0 (CreateRcs true)
    = (Throw (ReferenceError "status"), st')
    /\ sent st' = [].
Proof.
  apply (proj1 (C6_handler_throws (host := world) config false)).
  reflexivity.
Defined.

(** C10, as the code behaves. One profile is configured and its script is
    [null]. The device on connection 1 names no profile: the password of
    the first profile is resolved, then the script is looked up in
    [AMTConfigurations[1]], which does not exist, and the request ends
    with a TypeError instead of a payload. The same device on connection 0
    is served, with [profileScript] [null]. *)
Theorem C10_script_lookup_by_connection_index :
  let st := serving 1 trusting in
  AMTConfigurations config = [mkProfile "default" "pw1" None]
  /\ amtPasswordOf config trusting st = (Normal (Value "pw1"), st)
  /\ fst (remoteConfiguration config (Some firmwareNonce) 1 st)
     = Throw (TypeError "obj.rcsConfig.AMTConfigurations[cindex] is undefined")
  /\ fst (remoteConfiguration config (Some firmwareNonce) 0 request) = Normal (Value reply)
  /\ profileScript reply = None.
Proof.
  cbv zeta. repeat split; vm_compute; reflexivity.
Qed.

(** A hash entry without [certificateHash] compares equal to the
    fingerprint that was never computed: the chain without root is
    returned, its last element undefined. *)
Example rootless_chain_with_bare_hash_entry :
  let st := serving 0 (mkConnection None (Some "noroot.example") None
                                    (Some firmwareNonce) (Some [mkHash None]) None) in
  dumpPfx noRoot 0 st
  = (Normal (Value (mkCertObj [Some "LEAF"; Some "INTER-A"; None] (Some provisioningKey))), st).
Proof. vm_compute. reflexivity. Qed.

(** * Further properties of the module *)

(** ** What the methods leave alone *)

Lemma keeps_ret {X A : Type} (proj : rcsState -> X) (a : A) : keeps proj (ret a).
Proof. now intros st. Qed.

Lemma keeps_throw {X A : Type} (proj : rcsState -> X) (e : exn) :
  keeps proj (throw (A := A) e).
Proof. now intros st. Qed.

Lemma keeps_get {X : Type} (proj : rcsState -> X) : keeps proj get.
Proof. now intros st. Qed.

Lemma keeps_bind {X A B : Type} (proj : rcsState -> X) (m : M A) (k : A -> M B) :
  keeps proj m -> (forall a, keeps proj (k a)) -> keeps proj (bind m k).
Proof.
  intros Hm Hk st. unfold bind. specialize (Hm st).
  destruct (m st) as [[a|e] st1]; cbn in *; [|exact Hm].
  now rewrite Hk.
Qed.

Lemma keeps_modify {X : Type} (proj : rcsState -> X) (f : rcsState -> rcsState) :
  (forall st, proj (f st) = proj st) -> keeps proj (modify f).
Proof. intros H st. apply H. Qed.

Lemma keeps_randomBytes {X : Type} (proj : rcsState -> X) (n : nat) `{Host} :
  (forall st, proj (advanceEntropy n st) = proj st) -> keeps proj (randomBytes n).
Proof. intros Hp st. apply Hp. Qed.

(** Decompose a method into its steps; the steps left are closed from
    the context. *)
Ltac framing :=
  repeat first
    [ apply keeps_ret
    | apply keeps_throw
    | apply keeps_get
    | solve [auto]
    | apply keeps_bind; [|intros ?]
    | match goal with |- keeps _ (match ?x with _ => _ end) => destruct x end
    | match goal with |- keeps _ (if ?x then _ else _) => destruct x end ].

Ltac unfold_methods :=
  unfold remoteConfiguration, getProvisioningCertObj, convertPfxToObject, dumpPfx,
    amtPasswordOf, profileScriptOf in *;
  unfold_monad.

Section Frames.

Context {host : Host}.
Variable rcsConfig : rcsConfiguration.
Variable db : bool.

Lemma keeps_certs {X : Type} (proj : rcsState -> X) :
  (forall msg st, proj (logConsole msg st) = proj st) ->
  (forall c st, proj (logFs c st) = proj st) ->
  forall domain index, keeps proj (getProvisioningCertObj rcsConfig domain index).
Proof.
  intros Hconsole Hfs domain index.
  assert (Hout : forall msg, keeps proj (output msg)).
  { intros msg st. apply Hconsole. }
  assert (HlogFs : forall c, keeps proj (modify (logFs c))).
  { intros c st. apply Hfs. }
  unfold getProvisioningCertObj, convertPfxToObject, dumpPfx.
  cbv zeta. framing.
Qed.

Lemma keeps_password {X : Type} (proj : rcsState -> X) :
  (forall msg st, proj (logConsole msg st) = proj st) ->
  forall conn, keeps proj (amtPasswordOf rcsConfig conn).
Proof.
  intros Hconsole conn.
  assert (Hout : forall msg, keeps proj (output msg)).
  { intros msg st. apply Hconsole. }
  unfold amtPasswordOf. framing.
Qed.

Lemma keeps_script {X : Type} (proj : rcsState -> X) :
  (forall c st, proj (logFs c st) = proj st) ->
  forall cindex, keeps proj (profileScriptOf rcsConfig cindex).
Proof.
  intros Hfs cindex.
  assert (HlogFs : forall c, keeps proj (modify (logFs c))).
  { intros c st. apply Hfs. }
  unfold profileScriptOf. framing.
Qed.

Lemma keeps_engine {X : Type} (proj : rcsState -> X) :
  (forall msg st, proj (logConsole msg st) = proj st) ->
  (forall c st, proj (logFs c st) = proj st) ->
  (forall n st, proj (advanceEntropy n st) = proj st) ->
  forall fwNonce cindex, keeps proj (remoteConfiguration rcsConfig fwNonce cindex).
Proof.
  intros Hconsole Hfs Hentropy fwNonce cindex.
  pose proof (keeps_certs proj Hconsole Hfs) as Hcerts.
  pose proof (keeps_password proj Hconsole) as Hpassword.
  pose proof (keeps_script proj Hfs) as Hscript.
  assert (Hrandom : keeps proj generateNonce).
  { intros st. apply Hentropy. }
  unfold remoteConfiguration. cbv zeta. framing.
Qed.

Lemma keeps_connection_engine fwNonce cindex :
  keeps connection (remoteConfiguration rcsConfig fwNonce cindex).
Proof. apply keeps_engine; reflexivity. Qed.

Lemma keeps_dbCalls_engine fwNonce cindex :
  keeps dbCalls (remoteConfiguration rcsConfig fwNonce cindex).
Proof. apply keeps_engine; reflexivity. Qed.

Lemma keeps_wsServer_engine fwNonce cindex :
  keeps wsServer (remoteConfiguration rcsConfig fwNonce cindex).
Proof. apply keeps_engine; reflexivity. Qed.

Lemma keeps_sendMessage {X : Type} (proj : rcsState -> X) index message :
  (forall msg st, proj (logConsole msg st) = proj st) ->
  (forall i e st, proj (logSent i e st) = proj st) ->
  keeps proj (sendMessage index message).
Proof.
  intros Hconsole Hsent. unfold sendMessage, reference, output.
  assert (Hout : forall msg, keeps proj (modify (logConsole msg))).
  { intros msg st. apply Hconsole. }
  assert (Hs : forall i e, keeps proj (modify (logSent i e))).
  { intros i e st. apply Hsent. }
  framing.
Qed.

(** The engine consumes no random byte or twenty of them. *)
Lemma engine_entropy fwNonce cindex st r st' :
  remoteConfiguration rcsConfig fwNonce cindex st = (r, st') ->
  entropyPos st' = entropyPos st \/ entropyPos st' = entropyPos st + 20.
Proof.
  unfold remoteConfiguration. unfold bind at 1. unfold get.
  destruct (connection st !! cindex) as [conn|]; [|intros [= <- <-]; now left].
  unfold bind at 1.
  pose proof (keeps_certs entropyPos (fun _ _ => eq_refl) (fun _ _ => eq_refl)
                (requestedDomain conn) cindex st) as Hcerts.
  unfold requestedDomain in Hcerts.
  destruct (getProvisioningCertObj _ _ _ st) as [[[t|o]|e] st1]; cbn [snd] in Hcerts;
    try (intros [= <- <-]; left; exact Hcerts).
  unfold bind at 1, generateNonce, randomBytes.
  destruct fwNonce as [fw|]; cbn [Buffer_concat];
    [|intros [= <- <-]; right; cbn; lia].
  destruct (signString _ _) as [t|sig]; [intros [= <- <-]; right; cbn; lia|].
  unfold bind at 1.
  pose proof (keeps_password entropyPos (fun _ _ => eq_refl) conn (advanceEntropy 20 st1))
    as Hpw.
  destruct (amtPasswordOf _ _ _) as [[[t|pw]|e] st2]; cbn [snd] in Hpw;
    try (intros [= <- <-]; right; cbn in *; lia).
  unfold bind at 1.
  pose proof (keeps_script entropyPos (fun _ _ => eq_refl) cindex st2) as Hscript.
  destruct (profileScriptOf _ _ _) as [[script|e] st3];
    intros [= <- <-]; right; cbn in *; lia.
Qed.

End Frames.

(** ** The dispatcher, event by event *)

Section Dispatcher.

Context {host : Host}.
Variable rcsConfig : rcsConfiguration.
Variable db : bool.

Lemma ensure_step (index : nat) (st : rcsState) :
  (match connection st !! index with
   | None => modify (setConnection <[index := emptyConnection]>)
   | Some _ => ret tt
   end) st = (Normal tt, ensured index st).
Proof. unfold ensured. now destruct (connection st !! index). Qed.

Lemma ensured_lookup (index : nat) (st : rcsState) :
  connection (ensured index st) !! index = Some (recorded index st).
Proof.
  unfold ensured, recorded. destruct (connection st !! index) eqn:E; cbn.
  - exact E.
  - apply lookup_insert_eq.
Qed.

Lemma ensured_other (index j : nat) (st : rcsState) :
  j <> index -> connection (ensured index st) !! j = connection st !! j.
Proof.
  intros Hj. unfold ensured. destruct (connection st !! index); cbn; [reflexivity|].
  now apply lookup_insert_ne.
Qed.


Lemma ensured_delete (index : nat) (st : rcsState) :
  delete index (connection (ensured index st)) = delete index (connection st).
Proof.
  unfold ensured. destruct (connection st !! index); cbn; [reflexivity|].
  apply delete_insert_eq.
Qed.

(** The handler on an object: line 79, then the [switch]. *)
Lemma handler_structured (event : string) (m : message) (index : nat) (st : rcsState) :
  wsConnectionHandler rcsConfig db event (Structured m) index st =
  (if String.eqb event "acmactivate" then acmactivate rcsConfig db m index
   else if String.eqb event "error" then
     output ("AMT Device " +:+ jsNumber index +:+ " received " +:+ dquote +:+ "error"
             +:+ dquote +:+ " message: " +:+ jsString (m_data m))
   else if String.eqb event "close" then
     output (jsString (m_data m));;;
     modify (setConnection (delete index))
   else if String.eqb event "finish" then
     output ("AMT Configuration of device " +:+ jsNumber index +:+ " "
             +:+ jsString (m_data m))
   else
     output ("Detected a new websocket message type (need to handle this): " +:+ event))
    (ensured index st).
Proof.
  unfold wsConnectionHandler. unfold bind at 1. unfold get.
  rewrite (bind_normal _ _ _ _ _ (ensure_step index st)).
  unfold bind at 1. unfold ret at 1. reflexivity.
Qed.

(** A string frame that parses is handled as the parsed object, under
    the event its [action] names when it has one. *)
Lemma handler_text (event s : string) (m : message) (index : nat) (st : rcsState) :
  JSON_parse s = Some (ParsedValue m) ->
  wsConnectionHandler rcsConfig db event (Text s) index st =
  wsConnectionHandler rcsConfig db
    (if truthy (m_action m) then jsString (m_action m) else event)
    (Structured m) index st.
Proof.
  intros Hparse. unfold wsConnectionHandler. now rewrite Hparse.
Qed.

Lemma acmactivate_state (m : message) (index : nat) (st : rcsState) (c : connectionState) :
  connection st !! index = Some c ->
  exists e st',
    acmactivate rcsConfig db m index st = (Throw e, st')
    /\ connection st' = <[index := mergeMessage m c]> (connection st)
    /\ dbCalls st' = dbCalls st ++ (if db then [mergeMessage m c] else [])
    /\ sent st' = sent st.
Proof.
  intros Hc. unfold acmactivate. unfold bind at 1. unfold get. rewrite Hc.
  set (c' := mergeMessage m c).
  unfold bind at 1. unfold modify at 1.
  set (st1 := setConnection _ st).
  assert (Hdb : exists st2,
             (if db then modify (logDb c') else ret tt) st1 = (Normal tt, st2)
             /\ connection st2 = <[index := c']> (connection st)
             /\ dbCalls st2 = dbCalls st ++ (if db then [c'] else [])
             /\ sent st2 = sent st).
  { destruct db; eexists; (split; [reflexivity|]); cbn; rewrite ?app_nil_r; auto. }
  destruct Hdb as (st2 & Hdb & Hconn2 & Hdb2 & Hsent2).
  rewrite (bind_normal _ _ _ _ _ Hdb).
  pose proof (keeps_connection_engine rcsConfig (fwNonce c') index st2) as Hk1.
  pose proof (keeps_dbCalls_engine rcsConfig (fwNonce c') index st2) as Hk2.
  pose proof (silent_remoteConfiguration rcsConfig (fwNonce c') index st2) as Hk3.
  unfold bind at 1.
  destruct (remoteConfiguration rcsConfig (fwNonce c') index st2) as [[rcsObj|e] st3];
    cbn [snd] in Hk1, Hk2, Hk3;
    [|eexists _, _; split; [reflexivity|]; repeat split; congruence].
  destruct rcsObj as [t|p].
  - unfold bind at 1. unfold bind at 1. unfold output, modify, reference.
    rewrite sendMessage_unbound. unfold throw.
    eexists _, _; split; [reflexivity|]. cbn. repeat split; congruence.
  - unfold bind at 1. unfold ret.
    pose proof (keeps_sendMessage dbCalls index (Value p)
                  (fun _ _ => eq_refl) (fun _ _ _ => eq_refl) st3) as Hk4.
    destruct (sendMessage_throws index (Value p) st3) as (st4 & Hsend & Hsent4 & Hconn4).
    rewrite Hsend in Hk4 |- *. cbn [snd] in Hk4.
    eexists _, _; split; [reflexivity|]. repeat split; congruence.
Qed.

(** *** Isolation of the connections *)

Lemma localTo_keeps {A : Type} (index : nat) (m : M A) :
  keeps connection m -> localTo index m.
Proof. intros H st j _. now rewrite H. Qed.

Lemma localTo_bind {A B : Type} (index : nat) (m : M A) (k : A -> M B) :
  localTo index m -> (forall a, localTo index (k a)) -> localTo index (bind m k).
Proof.
  intros Hm Hk st j Hj. unfold bind. specialize (Hm st j Hj).
  destruct (m st) as [[a|e] st1]; cbn in *; [|exact Hm].
  now rewrite Hk.
Qed.

Lemma localTo_insert (index : nat) (c : connectionState) :
  localTo index (modify (setConnection <[index := c]>)).
Proof. intros st j Hj. cbn. now apply lookup_insert_ne. Qed.

Lemma localTo_delete (index : nat) :
  localTo index (modify (setConnection (delete index))).
Proof. intros st j Hj. cbn. now apply lookup_delete_ne. Qed.

Lemma localTo_acmactivate (m : message) (index : nat) :
  localTo index (acmactivate rcsConfig db m index).
Proof.
  unfold acmactivate.
  apply localTo_bind; [now apply localTo_keeps|]. intros st.
  destruct (connection st !! index) as [c|]; [|now apply localTo_keeps].
  apply localTo_bind; [apply localTo_insert|]. intros _.
  apply localTo_keeps.
  pose proof (keeps_connection_engine rcsConfig) as Hengine.
  assert (Hsend : forall i msg, keeps connection (sendMessage i msg)).
  { intros i msg. apply keeps_sendMessage; reflexivity. }
  assert (Hout : forall msg, keeps connection (output msg)) by (intros msg st0; reflexivity).
  assert (Hdb : forall c0, keeps connection (modify (logDb c0)))
    by (intros c0 st0; reflexivity).
  assert (Href : forall l n, keeps connection (reference l n)).
  { intros l n. unfold reference. framing. }
  framing.
Qed.

Lemma localTo_handler (event : string) (frame : wsMessage) (index : nat) :
  localTo index (wsConnectionHandler rcsConfig db event frame index).
Proof.
  assert (Hsend : forall i msg, localTo index (sendMessage i msg)).
  { intros i msg. apply localTo_keeps, keeps_sendMessage; reflexivity. }
  assert (Hout : forall msg, localTo index (output msg)).
  { intros msg. apply localTo_keeps. intros st0. reflexivity. }
  assert (Hret : forall (A : Type) (a : A), localTo index (ret a)).
  { intros A a. apply localTo_keeps, keeps_ret. }
  unfold wsConnectionHandler.
  apply localTo_bind; [now apply localTo_keeps|]. intros st.
  apply localTo_bind.
  { destruct (connection st !! index); [apply Hret | apply localTo_insert]. }
  intros _. apply localTo_bind.
  { destruct frame as [s|m]; [|apply Hret].
    destruct (JSON_parse s) as [[|m]|];
      [apply localTo_keeps, keeps_throw | apply Hret |].
    repeat (apply localTo_bind; [auto | intros ?]). apply Hret. }
  intros em. cbv zeta.
  repeat match goal with |- localTo _ (if ?x then _ else _) => destruct x end; auto.
  - apply localTo_acmactivate.
  - apply localTo_bind; [auto | intros ?]. apply localTo_delete.
Qed.

End Dispatcher.

(** ** PEM bodies, fingerprints and the chain in general *)

Lemma startsWith_app (p t : string) : startsWith p (p +:+ t) = true.
Proof.
  induction p as [|a p IH]; [now destruct t|].
  change (startsWith (String a p) (String a (p +:+ t)) = true).
  cbn [startsWith]. now rewrite Ascii.eqb_refl, IH.
Qed.

Lemma dropString_app (p t : string) : dropString (String.length p) (p +:+ t) = t.
Proof. induction p as [|a p IH]; [now destruct t | exact IH]. Qed.

Lemma removeFirst_prefix (p t : string) : removeFirst p (p +:+ t) = t.
Proof.
  destruct p as [|a p]; [now destruct t|].
  change (removeFirst (String a p) (String a p +:+ t))
    with (if startsWith (String a p) (String a p +:+ t)
          then dropString (String.length (String a p)) (String a p +:+ t)
          else String a (removeFirst (String a p) (p +:+ t))).
  now rewrite startsWith_app, dropString_app.
Qed.

(** A text free of the first character of the pattern is skipped as a
    whole. *)
Lemma removeFirst_skip (a : ascii) (p body rest : string) :
  ~ In a (chars body) ->
  removeFirst (String a p) (body +:+ rest) = body +:+ removeFirst (String a p) rest.
Proof.
  induction body as [|c body IH]; intros Hfree; [reflexivity|].
  change (removeFirst (String a p) (String c body +:+ rest))
    with (if startsWith (String a p) (String c (body +:+ rest))
          then dropString (String.length (String a p)) (String c (body +:+ rest))
          else String c (removeFirst (String a p) (body +:+ rest))).
  cbn [startsWith]. destruct (Ascii.eqb_spec a c) as [->|Hne].
  - exfalso. apply Hfree. now left.
  - cbn [andb]. rewrite IH; [reflexivity|]. intros Hin. apply Hfree. now right.
Qed.

Lemma removeFirst_absent (p s : string) :
  includes s p = false -> removeFirst p s = s.
Proof.
  induction s as [|c s IH]; cbn [includes removeFirst]; intros H.
  - now destruct (startsWith p "").
  - apply orb_false_iff in H as [-> H]. now rewrite IH.
Qed.

Lemma toHex_length (bs : buffer) : String.length (toHex bs) = 2 * length bs.
Proof.
  induction bs as [|b bs IH]; [reflexivity|].
  change (String.length (toHex (b :: bs))) with (S (S (String.length (toHex bs)))).
  cbn [length]. lia.
Qed.

Lemma toUpperCase_length (s : string) : String.length (toUpperCase s) = String.length s.
Proof. induction s as [|c s IH]; [reflexivity|]. cbn. now rewrite IH. Qed.

Lemma toUpperCase_toHex_chars (bs : buffer) :
  Forall (fun c => isUpperHex c = true) (chars (toUpperCase (toHex bs))).
Proof.
  induction bs as [|b bs IH]; [constructor|].
  cbn [toHex]. rewrite toUpperCase_app.
  destruct (hexOfByte_upper b) as (h & l & -> & Hh & Hl).
  now repeat constructor.
Qed.

Lemma upperAscii_hex (c : ascii) : isUpperHex c = true -> upperAscii c = c.
Proof.
  destruct c as [[] [] [] [] [] [] [] []]; cbn; intros H; try discriminate H; reflexivity.
Qed.

Lemma toUpperCase_fixed (s : string) :
  Forall (fun c => isUpperHex c = true) (chars s) -> toUpperCase s = s.
Proof.
  induction s as [|c s IH]; [reflexivity|]. intros H. inversion H as [|? ? Hc Hs]; subst.
  cbn. now rewrite (upperAscii_hex c Hc), (IH Hs).
Qed.

Lemma partition_Permutation {A : Type} (f : A -> bool) (l : list A) :
  Permutation (List.filter (fun x => Bool.eqb (f x) false) l
               ++ List.filter (fun x => Bool.eqb (f x) true) l) l.
Proof.
  induction l as [|x l IH]; [constructor|].
  cbn. destruct (f x); cbn.
  - apply Permutation_sym, Permutation_cons_app, Permutation_sym, IH.
  - now constructor.
Qed.

Lemma trustedRoot_app (h1 h2 : list hashEntry) (fp : option string) :
  trustedRoot (h1 ++ h2) fp = trustedRoot h1 fp || trustedRoot h2 fp.
Proof.
  induction h1 as [|h h1 IH]; [reflexivity|].
  cbn. now destruct (looseEq (certificateHash h) fp).
Qed.

Lemma trustedRoot_Permutation (h1 h2 : list hashEntry) (fp : option string) :
  Permutation h1 h2 -> trustedRoot h1 fp = trustedRoot h2 fp.
Proof.
  induction 1 as [|x l l' _ IH|x y l|l l' l'' _ IH1 _ IH2]; cbn.
  - reflexivity.
  - now rewrite IH.
  - now destruct (looseEq (certificateHash x) fp), (looseEq (certificateHash y) fp).
  - congruence.
Qed.

Section ChainInGeneral.

Context {host : Host}.

Lemma rootAfter_app (pre post : list certificate) (r0 : certEntry) :
  rootAfter (pre ++ post) r0 = rootAfter post (rootAfter pre r0).
Proof. unfold rootAfter. apply fold_left_app. Qed.

Lemma fingerprintAfter_app (pre post : list certificate) (f0 : option string) :
  fingerprintAfter (pre ++ post) f0 = fingerprintAfter post (fingerprintAfter pre f0).
Proof. unfold fingerprintAfter. apply fold_left_app. Qed.

Lemma chain_shape (c0 : certificate) (rest : list certificate) (keys : list privateKeyObj) :
  certChain (assemble (mkPfx (c0 :: rest) keys)) =
  Some (trimPem c0)
  :: (map pem (List.filter (fun e => Bool.eqb (sortCertificate e (rootAfter rest emptyEntry)) false)
                           (map entryOf (intermediatesOf rest)))
      ++ map pem (List.filter (fun e => Bool.eqb (sortCertificate e (rootAfter rest emptyEntry)) true)
                              (map entryOf (intermediatesOf rest))))
     ++ [pem (rootAfter rest emptyEntry)].
Proof.
  unfold assemble. cbn [certChain pfxCerts]. rewrite scan_shape.
  unfold orderChain. cbn [leaf root interObj].
  rewrite !pushIntermediates_filter. cbn [entryOf pem app].
  now rewrite <- !app_assoc.
Qed.

End ChainInGeneral.

(** ** Certificate resolution, path by path *)

Lemma find_first {A : Type} (f : A -> bool) (pre post : list A) (d : A) :
  Forall (fun x => f x = false) pre -> f d = true -> find f (pre ++ d :: post) = Some d.
Proof.
  induction 1 as [|x pre Hx _ IH]; intros Hd; cbn.
  - now rewrite Hd.
  - rewrite Hx. now apply IH.
Qed.

Section Resolution.

Context {host : Host}.
Variable rcsConfig : rcsConfiguration.

Lemma firstDomain_find (domain : string) (d : amtDomain) :
  firstDomain rcsConfig domain d ->
  find (fun e => looseEq (Some (DomainSuffix e)) (Some domain)) (AMTDomains rcsConfig)
  = Some d.
Proof.
  intros (pre & post & -> & Hpre & Hd). apply find_first.
  - eapply Forall_impl; [exact Hpre|]. cbn. intros e He.
    now destruct (String.eqb_spec (DomainSuffix e) domain).
  - cbn. rewrite Hd. apply String.eqb_refl.
Qed.

Lemma firstProfile_find (name : string) (p : amtConfiguration) :
  firstProfile rcsConfig name p ->
  find (fun c => looseEq (Some (ProfileName c)) (Some name)) (AMTConfigurations rcsConfig)
  = Some p.
Proof.
  intros (pre & post & -> & Hpre & Hp). apply find_first.
  - eapply Forall_impl; [exact Hpre|]. cbn. intros c Hc.
    now destruct (String.eqb_spec (ProfileName c) name).
  - cbn. rewrite Hp. apply String.eqb_refl.
Qed.

(** Past the domain lookup, [getProvisioningCertObj] is lines 206-219 on
    the first matching entry. *)
Lemma getProvisioningCertObj_first (domain : string) (d : amtDomain) (index : nat)
    (st : rcsState) :
  domain <> "" -> firstDomain rcsConfig domain d ->
  getProvisioningCertObj rcsConfig (Some domain) index st =
  if negb (fs_existsSync (ProvisioningCert d))
  then (Normal (ErrorText errCertNotFound), logFs (ExistsSync (ProvisioningCert d)) st)
  else
    match fs_readFileSync (ProvisioningCert d) with
    | None => (Throw (SystemError "fs.readFileSync"), containerRead d st)
    | Some der =>
        match forge_asn1_fromDer der with
        | None => (Throw (SystemError "forge.asn1.fromDer"), containerRead d st)
        | Some asn =>
            match forge_pkcs12FromAsn1 asn (ProvisioningCertPassword d) with
            | None => (Normal (ErrorText errDecrypt), containerRead d st)
            | Some pfx =>
                dumpPfx (mkPfx (forge_certBags pfx) (forge_keyBags pfx)) index
                        (containerRead d st)
            end
        end
    end.
Proof.
  intros Hne Hd. unfold getProvisioningCertObj.
  rewrite truthy_true by exact Hne. cbn [negb].
  rewrite (firstDomain_find _ _ Hd). cbv zeta.
  unfold bind at 1. unfold modify at 1.
  destruct (fs_existsSync (ProvisioningCert d)); cbn [negb]; [|reflexivity].
  unfold bind at 1. unfold convertPfxToObject. unfold bind at 1. unfold modify at 1.
  fold (containerRead d st).
  destruct (fs_readFileSync (ProvisioningCert d)) as [der|]; [|reflexivity].
  destruct (forge_asn1_fromDer der) as [asn|]; [|reflexivity].
  destruct (forge_pkcs12FromAsn1 asn (ProvisioningCertPassword d)); reflexivity.
Qed.

Lemma getProvisioningCertObj_opens (domain : string) (d : amtDomain) (pfxobj : pfxObject)
    (index : nat) (st : rcsState) :
  domain <> "" -> firstDomain rcsConfig domain d -> opens d pfxobj ->
  getProvisioningCertObj rcsConfig (Some domain) index st
  = dumpPfx pfxobj index (containerRead d st).
Proof.
  intros Hne Hd (Hex & der & asn & pfx & Hread & Hder & Hpfx & ->).
  rewrite (getProvisioningCertObj_first _ _ _ _ Hne Hd).
  now rewrite Hex, Hread, Hder, Hpfx.
Qed.

(** The engine up to the certificate stage, for a connection that names
    a domain. *)
Lemma remoteConfiguration_certs (fwNonce : option buffer) (cindex : nat) (st : rcsState)
    (conn : connectionState) (domain : string) :
  connection st !! cindex = Some conn ->
  dnsSuffix conn = Some domain -> domain <> "" ->
  remoteConfiguration rcsConfig fwNonce cindex st =
  match getProvisioningCertObj rcsConfig (Some domain) cindex st with
  | (Normal (ErrorText t), st1) => (Normal (ErrorText t), st1)
  | (Throw e, st1) => (Throw e, st1)
  | (Normal (Value o), st1) =>
      match fwNonce with
      | None => (Throw (TypeError "Buffer.concat: list[0] is not a Buffer"),
                 advanceEntropy 20 st1)
      | Some fw =>
          match signString (fw ++ consoleNonceAt st1) (privateKey o) with
          | ErrorText t => (Normal (ErrorText t), advanceEntropy 20 st1)
          | Value sig =>
              match amtPasswordOf rcsConfig conn (advanceEntropy 20 st1) with
              | (Normal (ErrorText t), st2) => (Normal (ErrorText t), st2)
              | (Throw e, st2) => (Throw e, st2)
              | (Normal (Value pw), st2) =>
                  match profileScriptOf rcsConfig cindex st2 with
                  | (Normal script, st3) =>
                      (Normal (Value (mkPayload "acmactivate" (mkCertObj (certChain o) None)
                                        (base64_encode (consoleNonceAt st1)) sig
                                        (toHex (crypto_md5 (digestInput conn pw))) script)),
                       st3)
                  | (Throw e, st3) => (Throw e, st3)
                  end
              end
          end
      end
  end.
Proof.
  intros Hconn Hdns Hne. unfold remoteConfiguration. unfold bind at 1. unfold get.
  rewrite Hconn. unfold bind at 1. rewrite Hdns, truthy_true by exact Hne.
  destruct (getProvisioningCertObj _ _ _ st) as [[[t|o]|e] st1]; try reflexivity.
  unfold bind at 1, generateNonce, randomBytes. fold (consoleNonceAt st1).
  destruct fwNonce as [fw|]; cbn [Buffer_concat]; [|reflexivity].
  rewrite app_nil_r. destruct (signString _ _) as [t|sig]; [reflexivity|].
  unfold bind at 1. fold (advanceEntropy 20 st1).
  destruct (amtPasswordOf _ _ _) as [[[t|pw]|e] st2]; reflexivity.
Qed.

Lemma amtPasswordOf_resolves (conn : connectionState) (pw : string) (st : rcsState) :
  resolvesTo rcsConfig conn pw ->
  amtPasswordOf rcsConfig conn st = (Normal (Value pw), st).
Proof.
  intros [(Hnone & c & rest & Hcfg & ->)|(name & p & Hname & Hne & Hp & ->)].
  - now apply (amtPasswordOf_default rcsConfig conn c rest).
  - unfold amtPasswordOf. rewrite Hname, truthy_true by exact Hne. cbn [negb].
    now rewrite (firstProfile_find _ _ Hp).
Qed.

Lemma profileScriptOf_entry (cindex : nat) (entry : amtConfiguration) (st : rcsState) :
  AMTConfigurations rcsConfig !! cindex = Some entry ->
  profileScriptOf rcsConfig cindex st = (Normal (scriptOf entry), scriptRead entry st).
Proof.
  intros H. unfold profileScriptOf, scriptOf, scriptRead. rewrite H.
  destruct (ConfigurationScript entry) as [path|]; [|reflexivity].
  now destruct (String.eqb path "").
Qed.

End Resolution.

(** ** Where the fields of a payload come from *)

Lemma find_Some_first {A : Type} (f : A -> bool) (l : list A) (d : A) :
  find f l = Some d ->
  exists pre post, l = pre ++ d :: post /\ Forall (fun x => f x = false) pre /\ f d = true.
Proof.
  induction l as [|x l IH]; [discriminate|]. cbn. destruct (f x) eqn:Hx.
  - intros [= ->]. exists [], l. repeat split; [constructor | exact Hx].
  - intros H. destruct (IH H) as (pre & post & -> & Hpre & Hd).
    exists (x :: pre), post. repeat split; [now constructor | exact Hd].
Qed.

Lemma truthy_Some (v : option string) :
  truthy v = true -> exists s, v = Some s /\ s <> "".
Proof.
  destruct v as [s|]; [|discriminate]. cbn. intros H. exists s. split; [reflexivity|].
  intros ->. discriminate H.
Qed.

Lemma looseEq_eq (a b : string) : looseEq (Some a) (Some b) = true -> a = b.
Proof. cbn. apply String.eqb_eq. Qed.

Section Origin.

Context {host : Host}.
Variable rcsConfig : rcsConfiguration.

Lemma getProvisioningCertObj_value_inv (domain : option string) (index : nat)
    (st st1 : rcsState) (o : provisioningCertificateObj) :
  getProvisioningCertObj rcsConfig domain index st = (Normal (Value o), st1) ->
  exists name d pfxobj,
    domain = Some name /\ name <> ""
    /\ firstDomain rcsConfig name d
    /\ opens d pfxobj
    /\ o = assemble pfxobj
    /\ st1 = containerRead d st.
Proof.
  intros H.
  destruct (truthy domain) eqn:Htruthy;
    [|now rewrite (getProvisioningCertObj_missing _ _ _ _ Htruthy) in H].
  destruct (truthy_Some _ Htruthy) as (name & -> & Hne).
  destruct (find (fun e => looseEq (Some (DomainSuffix e)) (Some name))
                 (AMTDomains rcsConfig)) as [d|] eqn:Hfind.
  - assert (Hd : firstDomain rcsConfig name d).
    { destruct (find_Some_first _ _ _ Hfind) as (pre & post & Hl & Hpre & Hmatch).
      exists pre, post. repeat split; [exact Hl | | now apply looseEq_eq].
      eapply Forall_impl; [exact Hpre|]. cbn. intros e He.
      now destruct (String.eqb_spec (DomainSuffix e) name). }
    rewrite (getProvisioningCertObj_first _ _ _ _ _ Hne Hd) in H.
    destruct (fs_existsSync (ProvisioningCert d)) eqn:Hex; cbn [negb] in H;
      [|discriminate].
    destruct (fs_readFileSync (ProvisioningCert d)) as [der|] eqn:Hread; [|discriminate].
    destruct (forge_asn1_fromDer der) as [asn|] eqn:Hder; [|discriminate].
    destruct (forge_pkcs12FromAsn1 asn (ProvisioningCertPassword d)) as [pfx|] eqn:Hpfx;
      [|discriminate].
    exists name, d, (mkPfx (forge_certBags pfx) (forge_keyBags pfx)).
    assert (Hopen : opens d (mkPfx (forge_certBags pfx) (forge_keyBags pfx))).
    { split; [exact Hex|]. exists der, asn, pfx. repeat split; assumption. }
    unfold dumpPfx in H. unfold_monad. cbv zeta in H.
    repeat case_match; simplify_eq.
    split; [reflexivity|]. split; [exact Hne|]. split; [exact Hd|].
    split; [exact Hopen|]. split; reflexivity.
  - unfold getProvisioningCertObj in H. rewrite Htruthy, Hfind in H. discriminate H.
Qed.

Lemma amtPasswordOf_value_inv (conn : connectionState) (s s2 : rcsState) (pw : string) :
  amtPasswordOf rcsConfig conn s = (Normal (Value pw), s2) ->
  resolvesTo rcsConfig conn pw /\ s2 = s.
Proof.
  unfold amtPasswordOf, resolvesTo.
  destruct (truthy (profile conn)) eqn:Htruthy; cbn [negb].
  - destruct (truthy_Some _ Htruthy) as (name & Hname & Hne). rewrite Hname.
    destruct (find _ _) as [p|] eqn:Hfind; [|discriminate].
    intros [= <- <-]. split; [|reflexivity]. right. exists name, p.
    repeat split; auto.
    destruct (find_Some_first _ _ _ Hfind) as (pre & post & Hl & Hpre & Hmatch).
    exists pre, post. repeat split; [exact Hl | | now apply looseEq_eq].
    eapply Forall_impl; [exact Hpre|]. cbn. intros c Hc.
    now destruct (String.eqb_spec (ProfileName c) name).
  - destruct (AMTConfigurations rcsConfig) as [|c rest] eqn:Hcfg; [discriminate|].
    intros [= <- <-]. split; [|reflexivity]. left. split; [reflexivity|].
    now exists c, rest.
Qed.

Lemma profileScriptOf_inv (cindex : nat) (s2 st' : rcsState) (script : option string) :
  profileScriptOf rcsConfig cindex s2 = (Normal script, st') ->
  exists entry,
    AMTConfigurations rcsConfig !! cindex = Some entry
    /\ script = scriptOf entry /\ st' = scriptRead entry s2.
Proof.
  destruct (AMTConfigurations rcsConfig !! cindex) as [entry|] eqn:Hentry.
  - rewrite (profileScriptOf_entry _ _ _ _ Hentry). intros [= <- <-]. now exists entry.
  - unfold profileScriptOf. now rewrite Hentry.
Qed.

Lemma requestedDomain_Some (conn : connectionState) (name : string) :
  requestedDomain conn = Some name -> dnsSuffix conn = Some name.
Proof. unfold requestedDomain. now destruct (truthy (dnsSuffix conn)). Qed.

(** Every field of a payload, and the state it is returned in, traced
    back to the connection, the configuration and the collaborators. *)
Lemma payload_origin (fwNonce : option buffer) (cindex : nat) (st st' : rcsState)
    (p : rcsPayload) :
  remoteConfiguration rcsConfig fwNonce cindex st = (Normal (Value p), st') ->
  exists conn domain d pfxobj fw pw entry,
    connection st !! cindex = Some conn
    /\ dnsSuffix conn = Some domain
    /\ firstDomain rcsConfig domain d
    /\ opens d pfxobj
    /\ fwNonce = Some fw
    /\ resolvesTo rcsConfig conn pw
    /\ AMTConfigurations rcsConfig !! cindex = Some entry
    /\ signString (fw ++ consoleNonceAt st) (lastKey (pfxKeys pfxobj)) = Value (signature p)
    /\ p = mkPayload "acmactivate"
                     (mkCertObj (orderChain (scanCerts 0 (pfxCerts pfxobj) emptyScan)) None)
                     (base64_encode (consoleNonceAt st)) (signature p)
                     (toHex (crypto_md5 (digestInput conn pw))) (scriptOf entry)
    /\ st' = scriptRead entry (advanceEntropy 20 (containerRead d st)).
Proof.
  intros H. apply remoteConfiguration_payload in H
    as [conn o st1 fw sig pw st2 Hconn Hcerts Hfw Hsig Hpw Hscript Hp].
  destruct (getProvisioningCertObj_value_inv _ _ _ _ _ Hcerts)
    as (domain & d & pfxobj & Hdomain & Hne & Hd & Hopen & -> & ->).
  destruct (amtPasswordOf_value_inv _ _ _ _ Hpw) as (Hres & ->).
  destruct (profileScriptOf_inv _ _ _ _ Hscript) as (entry & Hentry & Hs & ->).
  exists conn, domain, d, pfxobj, fw, pw, entry.
  change (consoleNonceAt (containerRead d st)) with (consoleNonceAt st) in *.
  change (privateKey (assemble pfxobj)) with (lastKey (pfxKeys pfxobj)) in Hsig.
  rewrite Hp. cbn [signature]. rewrite <- Hs.
  split; [exact Hconn|]. split; [now apply requestedDomain_Some|].
  split; [exact Hd|]. split; [exact Hopen|]. split; [exact Hfw|].
  split; [exact Hres|]. split; [exact Hentry|]. split; [exact Hsig|].
  split; reflexivity.
Qed.

End Origin.

Section KeyMaterial.

Context {host : Host}.
Variable rcsConfig : rcsConfiguration.
Variable keys : @pkcs12 host -> list privateKeyObj.

Lemma scanCerts_withKeys (certs : list certificate) :
  forall i s,
    scanCerts (host := withKeys host keys) i certs s = scanCerts (host := host) i certs s.
Proof.
  induction certs as [|c certs IH]; intros i s; [reflexivity|].
  cbn [scanCerts]. rewrite IH. reflexivity.
Qed.

Lemma firstDomain_unique (name : string) (d d' : amtDomain) :
  firstDomain rcsConfig name d -> firstDomain rcsConfig name d' -> d = d'.
Proof.
  intros H H'. apply firstDomain_find in H, H'. congruence.
Qed.

Lemma resolvesTo_unique (conn : connectionState) (pw pw' : string) (st : rcsState) :
  resolvesTo rcsConfig conn pw -> resolvesTo rcsConfig conn pw' -> pw = pw'.
Proof.
  intros H H'.
  apply (amtPasswordOf_resolves rcsConfig conn pw st) in H.
  apply (amtPasswordOf_resolves rcsConfig conn pw' st) in H'.
  congruence.
Qed.

Lemma opens_withKeys (d : amtDomain) (pfxobj pfxobj' : pfxObject) :
  opens (host := host) d pfxobj ->
  opens (host := withKeys host keys) d pfxobj' ->
  pfxCerts pfxobj' = pfxCerts pfxobj.
Proof.
  intros (_ & der & asn & pfx & Hread & Hder & Hpfx & ->)
         (_ & der' & asn' & pfx' & Hread' & Hder' & Hpfx' & ->).
  cbn in *.
  rewrite Hread in Hread'. injection Hread' as <-.
  rewrite Hder in Hder'. injection Hder' as <-.
  rewrite Hpfx in Hpfx'. injection Hpfx' as <-.
  reflexivity.
Qed.

(** C2. Whatever [remoteConfiguration] returns holds no private key.
    A failure is one of the error texts of the file. In a payload the
    [privateKey] property of [certs] is gone and every field is accounted
    for: the chain is ordered from the certificates of the container of
    the first matching domain, the nonce is the next twenty random bytes,
    the password is the digest of the realm of the connection and of the
    password resolved from the configuration, the script is the one of
    [AMTConfigurations[cindex]], and the signature is what [signString]
    answers, the one place the key of the container is used. Accordingly,
    putting other keys in the container changes no field of the payload
    but the signature, nor the state the request ends in. *)
Theorem C2_no_private_key_in_payload :
  (forall fwNonce cindex st st' r,
      remoteConfiguration (host := host) rcsConfig fwNonce cindex st = (Normal r, st') ->
      match r with
      | ErrorText t => errorKindOf t <> None
      | Value p =>
          privateKey (certs p) = None
          /\ exists conn domain d pfxobj fw pw entry,
               connection st !! cindex = Some conn
               /\ dnsSuffix conn = Some domain
               /\ firstDomain rcsConfig domain d
               /\ opens d pfxobj
               /\ fwNonce = Some fw
               /\ resolvesTo rcsConfig conn pw
               /\ AMTConfigurations rcsConfig !! cindex = Some entry
               /\ signString (fw ++ consoleNonceAt st) (lastKey (pfxKeys pfxobj))
                  = Value (signature p)
               /\ p = mkPayload "acmactivate"
                        (mkCertObj (orderChain (scanCerts 0 (pfxCerts pfxobj) emptyScan))
                                   None)
                        (base64_encode (consoleNonceAt st)) (signature p)
                        (toHex (crypto_md5 (digestInput conn pw))) (scriptOf entry)
               /\ st' = scriptRead entry (advanceEntropy 20 (containerRead d st))
      end)
  /\ (forall fwNonce cindex st p st1 p' st2,
        remoteConfiguration (host := host) rcsConfig fwNonce cindex st
        = (Normal (Value p), st1) ->
        remoteConfiguration (host := withKeys host keys) rcsConfig fwNonce cindex st
        = (Normal (Value p'), st2) ->
        action p' = action p
        /\ certs p' = certs p
        /\ nonce p' = nonce p
        /\ password p' = password p
        /\ profileScript p' = profileScript p
        /\ st2 = st1).
Proof.
  split.
  - intros fwNonce cindex st st' r H. destruct r as [t|p].
    + eapply remoteConfiguration_errorText; eauto.
    + destruct (payload_origin rcsConfig _ _ _ _ _ H)
        as (conn & domain & d & pfxobj & fw & pw & entry & Hconn & Hdns & Hd & Hopen
            & Hfw & Hres & Hentry & Hsig & Hp & Hst).
      split; [rewrite Hp; reflexivity|].
      exists conn, domain, d, pfxobj, fw, pw, entry.
      repeat (split; [assumption|]). assumption.
  - intros fwNonce cindex st p st1 p' st2 H H'.
    destruct (payload_origin (host := host) rcsConfig _ _ _ _ _ H)
      as (conn & domain & d & pfxobj & fw & pw & entry & Hconn & Hdns & Hd & Hopen
          & Hfw & Hres & Hentry & Hsig & Hp & Hst).
    destruct (payload_origin (host := withKeys host keys) rcsConfig _ _ _ _ _ H')
      as (conn' & domain' & d' & pfxobj' & fw' & pw' & entry' & Hconn' & Hdns' & Hd'
          & Hopen' & Hfw' & Hres' & Hentry' & Hsig' & Hp' & Hst').
    assert (conn' = conn) as -> by congruence.
    assert (domain' = domain) as -> by congruence.
    assert (d' = d) as -> by (eapply firstDomain_unique; eauto).
    assert (pw' = pw) as -> by (eapply (resolvesTo_unique conn pw' pw st); eauto).
    assert (entry' = entry) as -> by congruence.
    pose proof (opens_withKeys d pfxobj pfxobj' Hopen Hopen') as Hcerts.
    rewrite Hp, Hp', Hst, Hst'. cbn [action certs nonce password profileScript].
    rewrite Hcerts, scanCerts_withKeys.
    repeat split.
Qed.

End KeyMaterial.

(** ** The properties *)

Section Extras.

Context {host : Host}.
Variable rcsConfig : rcsConfiguration.
Variable db : bool.

Lemma payload_entropy fwNonce cindex st st' p :
  remoteConfiguration rcsConfig fwNonce cindex st = (Normal (Value p), st') ->
  nonce p = base64_encode (map crypto_entropy (seq (entropyPos st) 20))
  /\ entropyPos st' = entropyPos st + 20.
Proof.
  intros H. apply remoteConfiguration_payload in H
    as [conn o st1 fw sig pw st2 Hconn Hcerts Hfw Hsig Hpw Hscript Hp].
  pose proof (keeps_certs rcsConfig entropyPos (fun _ _ => eq_refl) (fun _ _ => eq_refl)
                (requestedDomain conn) cindex st) as H1.
  rewrite Hcerts in H1. cbn [snd] in H1.
  pose proof (keeps_password rcsConfig entropyPos (fun _ _ => eq_refl) conn
                (advanceEntropy 20 st1)) as H2.
  rewrite Hpw in H2. cbn in H2.
  pose proof (keeps_script rcsConfig entropyPos (fun _ _ => eq_refl) cindex st2) as H3.
  rewrite Hscript in H3. cbn [snd] in H3.
  split; [|lia]. rewrite Hp. cbn [nonce]. unfold consoleNonceAt. now rewrite H1.
Qed.

(** X1. On a PEM text made of the BEGIN marker, a body without dash, the
    END marker and a tail, [trimPem] gives the body followed by the tail,
    line breaks included; a text with neither marker is left as it is. *)
Theorem X1_trimPem_strips_markers (cert : certificate) :
  (forall body tail,
      certPem cert = "-----BEGIN CERTIFICATE-----" +:+ body
                     +:+ "-----END CERTIFICATE-----" +:+ tail ->
      ~ In "-"%char (chars body) ->
      trimPem cert = body +:+ tail)
  /\ (includes (certPem cert) "-----BEGIN CERTIFICATE-----" = false ->
      includes (certPem cert) "-----END CERTIFICATE-----" = false ->
      trimPem cert = certPem cert).
Proof.
  split.
  - intros body tail Hpem Hbody. unfold trimPem. rewrite Hpem, removeFirst_prefix.
    change "-----END CERTIFICATE-----" with (String "-" "----END CERTIFICATE-----").
    rewrite (removeFirst_skip _ _ _ _ Hbody).
    now rewrite removeFirst_prefix.
  - intros Hb He. unfold trimPem.
    rewrite (removeFirst_absent _ _ Hb). now apply removeFirst_absent.
Qed.

(** X2. The fingerprint of a certificate is 64 characters long, all of
    them digits or uppercase A-F, and putting it in uppercase again
    changes nothing. *)
Theorem X2_fingerprint_format (cert : certificate) :
  String.length (fingerprintOf cert) = 64
  /\ Forall (fun c => isUpperHex c = true) (chars (fingerprintOf cert))
  /\ toUpperCase (fingerprintOf cert) = fingerprintOf cert.
Proof.
  unfold fingerprintOf.
  pose proof (toUpperCase_toHex_chars (forge_sha256 (certDer cert))) as Hchars.
  split; [|split; [exact Hchars | now apply toUpperCase_fixed]].
  rewrite toUpperCase_length, toHex_length, forge_sha256_length. reflexivity.
Qed.

(** X3. Whatever the container holds after its first certificate, the
    chain is the PEM of the first certificate, then every certificate that
    is not self-signed exactly once, then the root slot: its length is two
    plus the number of intermediates. An empty container gives two
    undefined entries. *)
Theorem X3_chain_shape (c0 : certificate) (rest : list certificate)
    (keys : list privateKeyObj) :
  (exists middle,
      certChain (assemble (mkPfx (c0 :: rest) keys))
      = Some (trimPem c0) :: middle ++ [pem (rootAfter rest emptyEntry)]
      /\ Permutation middle (map (fun c => Some (trimPem c)) (intermediatesOf rest)))
  /\ length (certChain (assemble (mkPfx (c0 :: rest) keys)))
     = 2 + length (intermediatesOf rest)
  /\ certChain (assemble (mkPfx [] keys)) = [None; None].
Proof.
  rewrite chain_shape.
  set (r := rootAfter rest emptyEntry).
  set (inter := map entryOf (intermediatesOf rest)).
  assert (Hperm : Permutation
            (map pem (List.filter (fun e => Bool.eqb (sortCertificate e r) false) inter)
             ++ map pem (List.filter (fun e => Bool.eqb (sortCertificate e r) true) inter))
            (map (fun c => Some (trimPem c)) (intermediatesOf rest))).
  { rewrite <- map_app.
    replace (map (fun c => Some (trimPem c)) (intermediatesOf rest)) with (map pem inter)
      by (unfold inter; now rewrite map_map).
    apply Permutation_map, partition_Permutation. }
  split; [eexists; split; [reflexivity | exact Hperm]|].
  split; [|reflexivity].
  cbn [length]. rewrite length_app, (Permutation_length Hperm), length_map.
  cbn [length]. lia.
Qed.

(** X4. When several certificates after the first are self-signed, the
    last of them is the root: its fingerprint is the one checked and its
    PEM closes the chain. When the container holds several keys, the last
    one is the private key. *)
Theorem X4_last_root_and_last_key (c0 r : certificate) (pre post : list certificate)
    (keys : list privateKeyObj) (k : privateKeyObj) :
  selfSigned r = true ->
  Forall (fun c => selfSigned c = false) post ->
  let pfxobj := mkPfx (c0 :: pre ++ r :: post) (keys ++ [k]) in
  fingerprint (scanCerts 0 (pfxCerts pfxobj) emptyScan) = Some (fingerprintOf r)
  /\ last (certChain (assemble pfxobj)) = Some (Some (trimPem r))
  /\ privateKey (assemble pfxobj) = Some k.
Proof.
  intros Hr Hpost pfxobj.
  assert (Hroot : rootAfter (pre ++ r :: post) emptyEntry = entryOf r).
  { rewrite rootAfter_app. cbn [rootAfter fold_left]. rewrite Hr.
    apply rootAfter_none. now apply filter_none. }
  split; [|split].
  - unfold pfxobj. cbn [pfxCerts]. rewrite scan_shape. cbn [fingerprint].
    rewrite fingerprintAfter_app. cbn [fingerprintAfter fold_left]. rewrite Hr.
    apply fingerprintAfter_none. now apply filter_none.
  - unfold pfxobj. rewrite chain_shape, Hroot. cbn [pem entryOf].
    rewrite app_comm_cons. apply last_snoc.
  - unfold pfxobj, assemble. cbn [privateKey pfxKeys]. apply lastKey_snoc.
Qed.

(** X5. The first certificate is the leaf even when it is self-signed:
    without self-signed certificate after it no fingerprint is computed,
    the chain ends with an undefined entry and, every recorded hash entry
    carrying a [certificateHash], validation fails. *)
Theorem X5_first_certificate_never_root (c0 : certificate) (rest : list certificate)
    (keys : list privateKeyObj) (index : nat) (st : rcsState)
    (conn : connectionState) (hashes : list hashEntry) :
  Forall (fun c => selfSigned c = false) rest ->
  connection st !! index = Some conn ->
  certHashes conn = Some hashes ->
  Forall (fun h => certificateHash h <> None) hashes ->
  fingerprint (scanCerts 0 (c0 :: rest) emptyScan) = None
  /\ last (certChain (assemble (mkPfx (c0 :: rest) keys))) = Some None
  /\ dumpPfx (mkPfx (c0 :: rest) keys) index st = (Normal (ErrorText errUntrusted), st).
Proof.
  intros Hrest Hconn Hhashes Hdefined.
  assert (Hfp : fingerprint (scanCerts 0 (c0 :: rest) emptyScan) = None).
  { rewrite scan_shape. cbn [fingerprint]. apply fingerprintAfter_none.
    now apply filter_none. }
  split; [exact Hfp|]. split.
  - rewrite chain_shape, rootAfter_none by now apply filter_none.
    rewrite app_comm_cons. apply last_snoc.
  - rewrite (dumpPfx_eval _ _ _ _ _ Hconn Hhashes). cbn [pfxCerts]. rewrite Hfp.
    now rewrite (trustedRoot_undefined _ Hdefined).
Qed.

(** X6. Validation does not depend on the order in which the device
    listed its hashes. *)
Theorem X6_trust_ignores_hash_order (pfxobj : pfxObject) (index : nat)
    (st st' : rcsState) (conn conn' : connectionState) (hashes hashes' : list hashEntry) :
  connection st !! index = Some conn ->
  connection st' !! index = Some conn' ->
  certHashes conn = Some hashes ->
  certHashes conn' = Some hashes' ->
  Permutation hashes hashes' ->
  fst (dumpPfx pfxobj index st) = fst (dumpPfx pfxobj index st').
Proof.
  intros Hc Hc' Hh Hh' Hperm.
  rewrite (dumpPfx_eval _ _ _ _ _ Hc Hh), (dumpPfx_eval _ _ _ _ _ Hc' Hh').
  cbn [fst]. now rewrite (trustedRoot_Permutation _ _ _ Hperm).
Qed.

(** X7. For a connection naming a configured domain, a container file
    that does not exist makes the request return the certificate-not-found
    error after the one existence test; a container that is read and
    parsed but does not decrypt makes it return the decryption error. In
    both cases no random byte is drawn. *)
Theorem X7_container_failures_reported (fwNonce : option buffer) (cindex : nat)
    (st : rcsState) (conn : connectionState) (domain : string) (d : amtDomain) :
  connection st !! cindex = Some conn ->
  dnsSuffix conn = Some domain -> domain <> "" ->
  firstDomain rcsConfig domain d ->
  (fs_existsSync (ProvisioningCert d) = false ->
   remoteConfiguration rcsConfig fwNonce cindex st
   = (Normal (ErrorText errCertNotFound), logFs (ExistsSync (ProvisioningCert d)) st))
  /\ (fs_existsSync (ProvisioningCert d) = true ->
      forall der asn,
        fs_readFileSync (ProvisioningCert d) = Some der ->
        forge_asn1_fromDer der = Some asn ->
        forge_pkcs12FromAsn1 asn (ProvisioningCertPassword d) = None ->
        remoteConfiguration rcsConfig fwNonce cindex st
        = (Normal (ErrorText errDecrypt), containerRead d st)).
Proof.
  intros Hconn Hdns Hne Hd.
  rewrite (remoteConfiguration_certs _ _ _ _ _ _ Hconn Hdns Hne).
  rewrite (getProvisioningCertObj_first _ _ _ _ _ Hne Hd).
  split.
  - intros ->. reflexivity.
  - intros -> der asn -> -> ->. reflexivity.
Qed.

(** X8. A container file that exists but cannot be read, or whose bytes
    are not DER, ends the request with the exception of the failing call:
    neither is caught and no error object is returned. *)
Theorem X8_read_and_parse_failures_escape (fwNonce : option buffer) (cindex : nat)
    (st : rcsState) (conn : connectionState) (domain : string) (d : amtDomain) :
  connection st !! cindex = Some conn ->
  dnsSuffix conn = Some domain -> domain <> "" ->
  firstDomain rcsConfig domain d ->
  fs_existsSync (ProvisioningCert d) = true ->
  (fs_readFileSync (ProvisioningCert d) = None ->
   remoteConfiguration rcsConfig fwNonce cindex st
   = (Throw (SystemError "fs.readFileSync"), containerRead d st))
  /\ (forall der,
        fs_readFileSync (ProvisioningCert d) = Some der ->
        forge_asn1_fromDer der = None ->
        remoteConfiguration rcsConfig fwNonce cindex st
        = (Throw (SystemError "forge.asn1.fromDer"), containerRead d st)).
Proof.
  intros Hconn Hdns Hne Hd Hex.
  rewrite (remoteConfiguration_certs _ _ _ _ _ _ Hconn Hdns Hne).
  rewrite (getProvisioningCertObj_first _ _ _ _ _ Hne Hd), Hex.
  split.
  - intros ->. reflexivity.
  - intros der -> ->. reflexivity.
Qed.

(** X9. A connection naming a configured profile gets the password of
    the first entry of that name, with no log line; every payload returned
    for it carries the digest of that password. *)
Theorem X9_named_profile_first_match (conn : connectionState) (name : string)
    (p : amtConfiguration) :
  profile conn = Some name -> name <> "" ->
  firstProfile rcsConfig name p ->
  (forall st, amtPasswordOf rcsConfig conn st = (Normal (Value (AMTPassword p)), st))
  /\ (forall fwNonce cindex st payload st',
        connection st !! cindex = Some conn ->
        remoteConfiguration rcsConfig fwNonce cindex st = (Normal (Value payload), st') ->
        password payload = toHex (crypto_md5 (digestInput conn (AMTPassword p)))).
Proof.
  intros Hname Hne Hp.
  assert (Hpw : forall st,
             amtPasswordOf rcsConfig conn st = (Normal (Value (AMTPassword p)), st)).
  { intros st. apply amtPasswordOf_resolves. right. exists name, p. auto. }
  split; [exact Hpw|].
  intros fwNonce cindex st payload st' Hconn H.
  apply remoteConfiguration_payload in H
    as [conn' o st1 fw sig pw st2 Hconn' Hcerts Hfw Hsig Hpw' Hscript Hpayload].
  assert (conn' = conn) as -> by congruence.
  rewrite Hpw in Hpw'. injection Hpw' as <- <-.
  rewrite Hpayload. reflexivity.
Qed.

(** X10. When the device never sent its hashes, a request whose container
    opens does not fail with the untrusted-certificate error: reading
    [certHashes.length] throws a TypeError. *)
Theorem X10_hashes_not_recorded_throws (fwNonce : option buffer) (cindex : nat)
    (st : rcsState) (conn : connectionState) (domain : string) (d : amtDomain)
    (pfxobj : pfxObject) :
  connection st !! cindex = Some conn ->
  dnsSuffix conn = Some domain -> domain <> "" ->
  firstDomain rcsConfig domain d ->
  opens d pfxobj ->
  certHashes conn = None ->
  remoteConfiguration rcsConfig fwNonce cindex st
  = (Throw (TypeError "obj.connection[index].certHashes is undefined"), containerRead d st).
Proof.
  intros Hconn Hdns Hne Hd Hopen Hnone.
  rewrite (remoteConfiguration_certs _ _ _ _ _ _ Hconn Hdns Hne).
  rewrite (getProvisioningCertObj_opens _ _ _ _ _ _ Hne Hd Hopen).
  unfold dumpPfx. unfold_monad. cbv zeta.
  change (connection (containerRead d st)) with (connection st).
  now rewrite Hconn, Hnone.
Qed.

(** X11. Without firmware nonce a request whose certificate resolves
    draws its twenty random bytes and then ends with the TypeError of
    [Buffer.concat]; no error object is returned. *)
Theorem X11_missing_firmware_nonce_throws (cindex : nat) (st st1 : rcsState)
    (conn : connectionState) (o : provisioningCertificateObj) :
  connection st !! cindex = Some conn ->
  getProvisioningCertObj rcsConfig (requestedDomain conn) cindex st
  = (Normal (Value o), st1) ->
  remoteConfiguration rcsConfig None cindex st
  = (Throw (TypeError "Buffer.concat: list[0] is not a Buffer"), advanceEntropy 20 st1).
Proof.
  intros Hconn Hcerts.
  unfold remoteConfiguration. unfold bind at 1. unfold get. rewrite Hconn.
  unfold bind at 1. fold (requestedDomain conn). rewrite Hcerts.
  reflexivity.
Qed.

(** X12. A request is served when the connection names a configured
    domain whose container opens, its hashes hold the fingerprint, the
    firmware nonce is there, the key signs, the profile resolves and
    [AMTConfigurations[cindex]] exists. The payload is then the ordered
    chain without key, the console nonce and the signature in base64, the
    password digest and the script of that entry; the state has gained
    the two accesses to the container, twenty bytes of entropy and the
    script read. *)
Theorem X12_request_served (fw : buffer) (cindex : nat) (st : rcsState)
    (conn : connectionState) (domain : string) (d : amtDomain) (pfxobj : pfxObject)
    (hashes : list hashEntry) (sig pw : string) (entry : amtConfiguration) :
  connection st !! cindex = Some conn ->
  dnsSuffix conn = Some domain -> domain <> "" ->
  firstDomain rcsConfig domain d ->
  opens d pfxobj ->
  certHashes conn = Some hashes ->
  trustedRoot hashes (fingerprint (scanCerts 0 (pfxCerts pfxobj) emptyScan)) = true ->
  signString (fw ++ consoleNonceAt st) (lastKey (pfxKeys pfxobj)) = Value sig ->
  resolvesTo rcsConfig conn pw ->
  AMTConfigurations rcsConfig !! cindex = Some entry ->
  remoteConfiguration rcsConfig (Some fw) cindex st
  = (Normal (Value (mkPayload "acmactivate"
                      (mkCertObj (certChain (assemble pfxobj)) None)
                      (base64_encode (consoleNonceAt st)) sig
                      (toHex (crypto_md5 (digestInput conn pw)))
                      (scriptOf entry))),
     scriptRead entry (advanceEntropy 20 (containerRead d st))).
Proof.
  intros Hconn Hdns Hne Hd Hopen Hhashes Htrust Hsig Hpw Hentry.
  rewrite (remoteConfiguration_certs _ _ _ _ _ _ Hconn Hdns Hne).
  rewrite (getProvisioningCertObj_opens _ _ _ _ _ _ Hne Hd Hopen).
  rewrite (dumpPfx_eval _ _ (containerRead d st) conn hashes Hconn Hhashes), Htrust.
  change (consoleNonceAt (containerRead d st)) with (consoleNonceAt st).
  change (privateKey (assemble pfxobj)) with (lastKey (pfxKeys pfxobj)).
  rewrite Hsig, (amtPasswordOf_resolves _ _ _ _ Hpw).
  now rewrite (profileScriptOf_entry _ _ _ _ Hentry).
Qed.

(** X13. Two requests served one after the other draw their console
    nonces from consecutive, disjoint stretches of the random source. *)
Theorem X13_successive_nonces_are_fresh (fw fw' : option buffer) (c c' : nat)
    (st st' st'' : rcsState) (p p' : rcsPayload) :
  remoteConfiguration rcsConfig fw c st = (Normal (Value p), st') ->
  remoteConfiguration rcsConfig fw' c' st' = (Normal (Value p'), st'') ->
  nonce p = base64_encode (map crypto_entropy (seq (entropyPos st) 20))
  /\ nonce p' = base64_encode (map crypto_entropy (seq (entropyPos st + 20) 20))
  /\ entropyPos st'' = entropyPos st + 40.
Proof.
  intros H1 H2.
  apply payload_entropy in H1 as [Hn1 Hpos1].
  apply payload_entropy in H2 as [Hn2 Hpos2].
  rewrite Hpos1 in Hn2, Hpos2. repeat split; [assumption | assumption | lia].
Qed.

(** X14. Whatever its outcome, [remoteConfiguration] leaves the recorded
    connections as they are, hands nothing to the transport, does not
    call the database hook, and draws either no random byte or twenty. *)
Theorem X14_engine_leaves_connections_alone (fwNonce : option buffer) (cindex : nat)
    (st : rcsState) :
  let st' := snd (remoteConfiguration rcsConfig fwNonce cindex st) in
  connection st' = connection st
  /\ sent st' = sent st
  /\ dbCalls st' = dbCalls st
  /\ wsServer st' = wsServer st
  /\ (entropyPos st' = entropyPos st \/ entropyPos st' = entropyPos st + 20).
Proof.
  cbv zeta. repeat split.
  - apply keeps_connection_engine.
  - apply silent_remoteConfiguration.
  - apply keeps_dbCalls_engine.
  - apply keeps_wsServer_engine.
  - eapply engine_entropy. apply surjective_pairing.
Qed.

(** X15. A [close] event logs the [data] of the message and deletes the
    entry of the connection; nothing else changes. *)
Theorem X15_close_forgets_connection (m : message) (index : nat) (st : rcsState) :
  wsConnectionHandler rcsConfig db "close" (Structured m) index st
  = (Normal tt,
     mkState (delete index (connection st)) (wsServer st)
             (console st ++ [jsString (m_data m)]) (sent st)
             (entropyPos st) (fsCalls st) (dbCalls st)).
Proof.
  rewrite handler_structured.
  change (String.eqb "close" "acmactivate") with false.
  change (String.eqb "close" "error") with false.
  change (String.eqb "close" "close") with true. cbv iota.
  unfold_monad. unfold setConnection, logConsole. cbn.
  rewrite ensured_delete.
  unfold ensured. now destruct (connection st !! index).
Qed.

(** X16. After a [close], the next [acmactivate] on the same index
    records the fields of its message over an empty entry: nothing of the
    earlier connection, the firmware nonce included, is left. *)
Theorem X16_reconnect_starts_empty (m0 m : message) (index : nat) (st : rcsState) :
  let st1 := snd (wsConnectionHandler rcsConfig db "close" (Structured m0) index st) in
  let st2 := snd (wsConnectionHandler rcsConfig db "acmactivate" (Structured m) index st1) in
  connection st1 !! index = None
  /\ connection st2 !! index = Some (mergeMessage m emptyConnection)
  /\ fwNonce (mergeMessage m emptyConnection)
     = (if truthy (m_nonce m) then Some (base64_decode (jsString (m_nonce m))) else None).
Proof.
  cbv zeta.
  assert (Hclosed :
            connection (snd (wsConnectionHandler rcsConfig db "close" (Structured m0) index st))
            !! index = None).
  { rewrite handler_structured.
    change (String.eqb "close" "acmactivate") with false.
    change (String.eqb "close" "error") with false.
    change (String.eqb "close" "close") with true. cbv iota.
    unfold_monad. cbn. apply lookup_delete_eq. }
  split; [exact Hclosed|]. split; [|reflexivity].
  set (st1 := snd (wsConnectionHandler rcsConfig db "close" (Structured m0) index st)) in *.
  rewrite handler_structured.
  change (String.eqb "acmactivate" "acmactivate") with true. cbv iota.
  destruct (acmactivate_state rcsConfig db m index (ensured index st1)
              (recorded index st1) (ensured_lookup index st1))
    as (e & st2 & -> & Hconn & _).
  cbn [snd]. rewrite Hconn, lookup_insert_eq.
  unfold recorded. now rewrite Hclosed.
Qed.

(** X17. Every event on an object other than [acmactivate] and [close]
    is logged and nothing more: the handler returns, having added one
    line to the console and, for an index not seen before, an empty entry
    to the connections. *)
Theorem X17_other_events_only_log (event : string) (m : message) (index : nat)
    (st : rcsState) :
  event <> "acmactivate" -> event <> "close" ->
  let line :=
    if String.eqb event "error" then
      "AMT Device " +:+ jsNumber index +:+ " received " +:+ dquote +:+ "error"
      +:+ dquote +:+ " message: " +:+ jsString (m_data m)
    else if String.eqb event "finish" then
      "AMT Configuration of device " +:+ jsNumber index +:+ " " +:+ jsString (m_data m)
    else "Detected a new websocket message type (need to handle this): " +:+ event in
  wsConnectionHandler rcsConfig db event (Structured m) index st
  = (Normal tt, logConsole line (ensured index st)).
Proof.
  intros Hacm Hclose. cbv zeta. rewrite handler_structured.
  apply String.eqb_neq in Hacm, Hclose. rewrite Hacm, Hclose.
  destruct (String.eqb event "error"); [reflexivity|].
  destruct (String.eqb event "finish"); reflexivity.
Qed.

(** X18. Handling an event of one connection, whatever the event, the
    message and the outcome, leaves the entries of all other connections
    as they were. *)
Theorem X18_connections_are_isolated (event : string) (frame : wsMessage)
    (index j : nat) (st : rcsState) :
  j <> index ->
  connection (snd (wsConnectionHandler rcsConfig db event frame index st)) !! j
  = connection st !! j.
Proof. intros Hj. now apply localTo_handler. Qed.


(** X20. A string frame that parses to [null] ends the handler with a
    TypeError at the read of [message.action], after the entry of line 79
    was created and before anything is logged. A string frame that parses
    to any other value is handled as that value, under the event named by
    its [action] when it has a non-empty one and under the transport
    event otherwise: so a frame whose action is [finish] is only logged
    even when the transport event is [close], and the connection entry
    stays. *)
Theorem X20_string_frames_null_and_action (event s : string) (index : nat)
    (st : rcsState) :
  (JSON_parse s = Some ParsedNull ->
   wsConnectionHandler rcsConfig db event (Text s) index st
   = (Throw (TypeError "message is null"), ensured index st))
  /\ (forall m,
        JSON_parse s = Some (ParsedValue m) ->
        wsConnectionHandler rcsConfig db event (Text s) index st =
        wsConnectionHandler rcsConfig db
          (if truthy (m_action m) then jsString (m_action m) else event)
          (Structured m) index st)
  /\ (forall m,
        JSON_parse s = Some (ParsedValue m) ->
        m_action m = Some "finish" ->
        wsConnectionHandler rcsConfig db "close" (Text s) index st
        = (Normal tt,
           logConsole ("AMT Configuration of device " +:+ jsNumber index +:+ " "
                       +:+ jsString (m_data m))
                      (ensured index st))).
Proof.
  split; [|split].
  - intros Hnull. unfold wsConnectionHandler. unfold bind at 1. unfold get.
    rewrite (bind_normal _ _ _ _ _ (ensure_step index st)).
    now rewrite Hnull.
  - intros m Hparse. now apply handler_text.
  - intros m Hparse Haction.
    rewrite (handler_text rcsConfig db "close" s m index st Hparse), Haction.
    change (truthy (Some "finish")) with true. cbv iota. cbn [jsString].
    rewrite handler_structured. reflexivity.
Qed.

End Extras.

(** ** Failures past the container, and repeated requests *)

Section Retries.

Context {host : Host}.
Variable rcsConfig : rcsConfiguration.
Variable db : bool.



(** X21. When the container of the named domain opens but no recorded
    hash equals its fingerprint, the request returns the
    untrusted-certificate error right after the container was read: no
    random byte is drawn and nothing is signed. *)
Theorem X21_untrusted_container_stops_request (fwNonce : option buffer) (cindex : nat)
    (st : rcsState) (conn : connectionState) (domain : string) (d : amtDomain)
    (pfxobj : pfxObject) (hashes : list hashEntry) :
  connection st !! cindex = Some conn ->
  dnsSuffix conn = Some domain -> domain <> "" ->
  firstDomain rcsConfig domain d ->
  opens d pfxobj ->
  certHashes conn = Some hashes ->
  trustedRoot hashes (fingerprint (scanCerts 0 (pfxCerts pfxobj) emptyScan)) = false ->
  remoteConfiguration rcsConfig fwNonce cindex st
  = (Normal (ErrorText errUntrusted), containerRead d st)
  /\ entropyPos (containerRead d st) = entropyPos st.
Proof.
  intros Hconn Hdns Hne Hd Hopen Hhashes Htrust. split; [|reflexivity].
  rewrite (remoteConfiguration_certs _ _ _ _ _ _ Hconn Hdns Hne).
  rewrite (getProvisioningCertObj_opens _ _ _ _ _ _ Hne Hd Hopen).
  now rewrite (dumpPfx_eval _ _ (containerRead d st) conn hashes Hconn Hhashes), Htrust.
Qed.

(** X22. Once the certificate is trusted and the firmware nonce is
    there, every failure to sign - no key in the container, a key that
    does not convert to PEM, a signing call that throws - makes the
    request return the signature error; the profile is not looked up. *)
Theorem X22_signing_failures_reported (fw : buffer) (cindex : nat) (st : rcsState)
    (conn : connectionState) (domain : string) (d : amtDomain) (pfxobj : pfxObject)
    (hashes : list hashEntry) :
  connection st !! cindex = Some conn ->
  dnsSuffix conn = Some domain -> domain <> "" ->
  firstDomain rcsConfig domain d ->
  opens d pfxobj ->
  certHashes conn = Some hashes ->
  trustedRoot hashes (fingerprint (scanCerts 0 (pfxCerts pfxobj) emptyScan)) = true ->
  (lastKey (pfxKeys pfxobj) = None
   \/ exists key, lastKey (pfxKeys pfxobj) = Some key
                  /\ (forge_privateKeyToPem key = None
                      \/ exists keyPem, forge_privateKeyToPem key = Some keyPem
                                        /\ crypto_sign_sha256 (fw ++ consoleNonceAt st) keyPem
                                           = None)) ->
  remoteConfiguration rcsConfig (Some fw) cindex st
  = (Normal (ErrorText errSignature), advanceEntropy 20 (containerRead d st)).
Proof.
  intros Hconn Hdns Hne Hd Hopen Hhashes Htrust Hfail.
  rewrite (remoteConfiguration_certs _ _ _ _ _ _ Hconn Hdns Hne).
  rewrite (getProvisioningCertObj_opens _ _ _ _ _ _ Hne Hd Hopen).
  rewrite (dumpPfx_eval _ _ (containerRead d st) conn hashes Hconn Hhashes), Htrust.
  change (consoleNonceAt (containerRead d st)) with (consoleNonceAt st).
  change (privateKey (assemble pfxobj)) with (lastKey (pfxKeys pfxobj)).
  assert (Hsig : signString (fw ++ consoleNonceAt st) (lastKey (pfxKeys pfxobj))
                 = ErrorText errSignature).
  { unfold signString.
    destruct Hfail as [->|(key & -> & [->|(keyPem & -> & ->)])]; reflexivity. }
  now rewrite Hsig.
Qed.


End Retries.

(** ** Worked requests for the further properties *)

Lemma X1_trimPem_strips_markers_witness :
  trimPem leafCert = "LEAF".
Proof.
  apply (proj1 (X1_trimPem_strips_markers leafCert) "LEAF" "").
  - reflexivity.
  - cbn. intros [H|[H|[H|[H|[]]]]]; discriminate H.
Defined.

Lemma X4_last_root_and_last_key_witness :
  let pfxobj := mkPfx [leafCert; rootCert; interA; otherRoot; interB]
                      [provisioningKey; otherKey] in
  fingerprint (scanCerts 0 (pfxCerts pfxobj) emptyScan) = Some (fingerprintOf otherRoot)
  /\ last (certChain (assemble pfxobj)) = Some (Some "OTHER-ROOT")
  /\ privateKey (assemble pfxobj) = Some otherKey.
Proof.
  apply (X4_last_root_and_last_key leafCert otherRoot [rootCert; interA] [interB]
           [provisioningKey] otherKey).
  - reflexivity.
  - repeat constructor.
Defined.

Lemma X5_first_certificate_never_root_witness :
  selfSigned rootCert = true
  /\ dumpPfx (mkPfx [rootCert] [provisioningKey]) 0 request
     = (Normal (ErrorText errUntrusted), request).
Proof.
  split; [reflexivity|].
  apply (X5_first_certificate_never_root rootCert [] [provisioningKey] 0 request
           trusting [mkHash (Some rootFingerprint)]).
  - constructor.
  - vm_compute; reflexivity.
  - reflexivity.
  - repeat constructor; discriminate.
Defined.

Lemma X6_trust_ignores_hash_order_witness :
  fst (dumpPfx fullChain 0 (serving 0 (twoHashes lowercaseHash rootFingerprint)))
  = fst (dumpPfx fullChain 0 (serving 0 (twoHashes rootFingerprint lowercaseHash))).
Proof.
  apply (X6_trust_ignores_hash_order fullChain 0 _ _
           (twoHashes lowercaseHash rootFingerprint)
           (twoHashes rootFingerprint lowercaseHash)
           [mkHash (Some lowercaseHash); mkHash (Some rootFingerprint)]
           [mkHash (Some rootFingerprint); mkHash (Some lowercaseHash)]).
  - vm_compute; reflexivity.
  - vm_compute; reflexivity.
  - reflexivity.
  - reflexivity.
  - apply perm_swap.
Defined.

Lemma X7_container_failures_reported_witness :
  let missing := serving 0 (device "missing.example" rootFingerprint) in
  let locked := serving 0 (device "locked.example" rootFingerprint) in
  remoteConfiguration (host := faultyDisk) doubledConfig (Some firmwareNonce) 0 missing
  = (Normal (ErrorText errCertNotFound), logFs (ExistsSync "/certs/missing.pfx") missing)
  /\ remoteConfiguration (host := faultyDisk) doubledConfig (Some firmwareNonce) 0 locked
     = (Normal (ErrorText errDecrypt), containerRead lockedDomain locked).
Proof.
  cbv zeta. split.
  - apply (X7_container_failures_reported (host := faultyDisk) doubledConfig
             (Some firmwareNonce) 0 (serving 0 (device "missing.example" rootFingerprint))
             (device "missing.example" rootFingerprint) "missing.example" missingDomain).
    + vm_compute; reflexivity.
    + reflexivity.
    + discriminate.
    + exists [], [lockedDomain; unreadableDomain; garbledDomain; servedDomain; shadowedDomain].
      repeat split. constructor.
    + reflexivity.
  - apply (fun H1 H2 H3 H4 =>
             proj2 (X7_container_failures_reported (host := faultyDisk) doubledConfig
                      (Some firmwareNonce) 0
                      (serving 0 (device "locked.example" rootFingerprint))
                      (device "locked.example" rootFingerprint) "locked.example"
                      lockedDomain H1 H2 H3 H4) eq_refl [x01] [x01] eq_refl eq_refl eq_refl).
    + vm_compute; reflexivity.
    + reflexivity.
    + discriminate.
    + exists [missingDomain], [unreadableDomain; garbledDomain; servedDomain; shadowedDomain].
      repeat split. repeat constructor; discriminate.
Defined.

Lemma X8_read_and_parse_failures_escape_witness :
  let unreadable := serving 0 (device "unreadable.example" rootFingerprint) in
  let garbled := serving 0 (device "garbled.example" rootFingerprint) in
  remoteConfiguration (host := faultyDisk) doubledConfig (Some firmwareNonce) 0 unreadable
  = (Throw (SystemError "fs.readFileSync"), containerRead unreadableDomain unreadable)
  /\ remoteConfiguration (host := faultyDisk) doubledConfig (Some firmwareNonce) 0 garbled
     = (Throw (SystemError "forge.asn1.fromDer"), containerRead garbledDomain garbled).
Proof.
  cbv zeta. split.
  - apply (fun H1 H2 H3 H4 =>
             proj1 (X8_read_and_parse_failures_escape (host := faultyDisk) doubledConfig
                      (Some firmwareNonce) 0
                      (serving 0 (device "unreadable.example" rootFingerprint))
                      (device "unreadable.example" rootFingerprint) "unreadable.example"
                      unreadableDomain H1 H2 H3 H4 eq_refl) eq_refl).
    + vm_compute; reflexivity.
    + reflexivity.
    + discriminate.
    + exists [missingDomain; lockedDomain], [garbledDomain; servedDomain; shadowedDomain].
      repeat split. repeat constructor; discriminate.
  - apply (fun H1 H2 H3 H4 =>
             proj2 (X8_read_and_parse_failures_escape (host := faultyDisk) doubledConfig
                      (Some firmwareNonce) 0
                      (serving 0 (device "garbled.example" rootFingerprint))
                      (device "garbled.example" rootFingerprint) "garbled.example"
                      garbledDomain H1 H2 H3 H4 eq_refl) [xff] eq_refl eq_refl).
    + vm_compute; reflexivity.
    + reflexivity.
    + discriminate.
    + exists [missingDomain; lockedDomain; unreadableDomain], [servedDomain; shadowedDomain].
      repeat split. repeat constructor; discriminate.
Defined.

Lemma X9_named_profile_first_match_witness :
  amtPasswordOf doubledConfig unknownProfile request = (Normal (Value "pwA"), request).
Proof.
  apply (fun H1 H2 H3 =>
           proj1 (X9_named_profile_first_match doubledConfig unknownProfile "kiosk"
                    (mkProfile "kiosk" "pwA" None) H1 H2 H3)).
  - reflexivity.
  - discriminate.
  - exists [], [mkProfile "kiosk" "pwB" None; scripted]. repeat split. constructor.
Defined.

Lemma X10_hashes_not_recorded_throws_witness :
  remoteConfiguration config (Some firmwareNonce) 0 (serving 0 silentDevice)
  = (Throw (TypeError "obj.connection[index].certHashes is undefined"),
     containerRead servedDomain (serving 0 silentDevice)).
Proof.
  apply (X10_hashes_not_recorded_throws config (Some firmwareNonce) 0 _ silentDevice
           "vprodemo.com" servedDomain fullChain).
  - vm_compute; reflexivity.
  - reflexivity.
  - discriminate.
  - exists [], [mkDomain "noroot.example" "/certs/noroot.pfx" "P@ssw0rd";
                mkDomain "nokey.example" "/certs/nokey.pfx" "P@ssw0rd"].
    repeat split. constructor.
  - split; [reflexivity|]. exists [x01], [x01], fullChain. repeat split.
  - reflexivity.
Defined.

Lemma X11_missing_firmware_nonce_throws_witness :
  remoteConfiguration config None 0 request
  = (Throw (TypeError "Buffer.concat: list[0] is not a Buffer"),
     advanceEntropy 20 requestRead).
Proof.
  apply (X11_missing_firmware_nonce_throws config 0 request requestRead trusting
           (assemble fullChain)).
  - vm_compute; reflexivity.
  - vm_compute; reflexivity.
Defined.

Lemma X12_request_served_witness :
  let st := serving 2 trusting in
  exists p st',
    remoteConfiguration (host := faultyDisk) doubledConfig (Some firmwareNonce) 2 st
    = (Normal (Value p), st')
    /\ certChain (certs p) = [Some "LEAF"; Some "INTER-A"; Some "INTER-B"; Some "ROOT"]
    /\ profileScript p = Some "script"
    /\ fsCalls st' = [ExistsSync "/certs/vprodemo.pfx"; ReadFileSync "/certs/vprodemo.pfx";
                      ReadFileSyncUtf8 "/scripts/setup.mescript"].
Proof.
  cbv zeta. eexists _, _. split.
  - apply (X12_request_served (host := faultyDisk) doubledConfig firmwareNonce 2
             (serving 2 trusting) trusting "vprodemo.com" servedDomain fullChain
             [mkHash (Some rootFingerprint)]
             "44332211443322114433221144332211443322110b0a" "pwA" scripted).
    + vm_compute; reflexivity.
    + reflexivity.
    + discriminate.
    + exists [missingDomain; lockedDomain; unreadableDomain; garbledDomain], [shadowedDomain].
      repeat split. repeat constructor; discriminate.
    + split; [reflexivity|]. exists [x01], [x01], fullChain. repeat split.
    + reflexivity.
    + vm_compute; reflexivity.
    + vm_compute; reflexivity.
    + left. split; [reflexivity|].
      exists (mkProfile "kiosk" "pwA" None), [mkProfile "kiosk" "pwB" None; scripted].
      split; reflexivity.
    + reflexivity.
  - repeat split.
Defined.

Lemma X13_successive_nonces_are_fresh_witness :
  let second := remoteConfiguration config (Some firmwareNonce) 0
                  (advanceEntropy 20 requestRead) in
  nonce reply = base64_encode (map crypto_entropy (seq 0 20))
  /\ exists p', fst second = Normal (Value p')
                /\ nonce p' = base64_encode (map crypto_entropy (seq 20 20)).
Proof.
  cbv zeta.
  set (second := remoteConfiguration config (Some firmwareNonce) 0
                   (advanceEntropy 20 requestRead)).
  set (p' := match fst second with Normal (Value p) => p | _ => reply end).
  assert (H1 : remoteConfiguration config (Some firmwareNonce) 0 request
               = (Normal (Value reply), advanceEntropy 20 requestRead))
    by (vm_compute; reflexivity).
  assert (H2 : second = (Normal (Value p'), snd second)) by (vm_compute; reflexivity).
  destruct (X13_successive_nonces_are_fresh config (Some firmwareNonce)
              (Some firmwareNonce) 0 0 request (advanceEntropy 20 requestRead)
              (snd second) reply p' H1 H2)
    as (Hn & Hn' & _).
  split; [exact Hn|]. exists p'. split; [now rewrite H2 | exact Hn'].
Defined.

Lemma X17_other_events_only_log_witness :
  wsConnectionHandler config false "finish" (Structured noProperties) 3 (CreateRcs true)
  = (Normal tt,
     logConsole "AMT Configuration of device 3 undefined" (ensured 3 (CreateRcs true))).
Proof.
  apply (X17_other_events_only_log config false "finish" noProperties 3 (CreateRcs true));
    discriminate.
Defined.

Lemma X18_connections_are_isolated_witness :
  connection (snd (wsConnectionHandler config false "close" (Structured noProperties) 0
                     (serving 1 trusting))) !! 1
  = Some trusting.
Proof.
  rewrite (X18_connections_are_isolated config false "close" (Structured noProperties) 0 1
             (serving 1 trusting)) by discriminate.
  vm_compute; reflexivity.
Defined.

Lemma X20_string_frames_null_and_action_witness :
  wsConnectionHandler config false "finish" (Text "null") 0 (CreateRcs true)
  = (Throw (TypeError "message is null"), ensured 0 (CreateRcs true))
  /\ wsConnectionHandler config false "finish" (Text "{}") 0 (CreateRcs true)
     = wsConnectionHandler config false "finish" (Structured noProperties) 0 (CreateRcs true)
  /\ wsConnectionHandler (host := faultyDisk) config false "close" (Text finishFrame) 1
       (serving 1 trusting)
     = (Normal tt,
        logConsole "AMT Configuration of device 1 done" (serving 1 trusting)).
Proof.
  split; [|split].
  - apply (proj1 (X20_string_frames_null_and_action config false "finish" "null" 0
                    (CreateRcs true))).
    reflexivity.
  - apply (proj1 (proj2 (X20_string_frames_null_and_action config false "finish" "{}" 0
                           (CreateRcs true))) noProperties).
    reflexivity.
  - apply (proj2 (proj2 (X20_string_frames_null_and_action (host := faultyDisk) config
                           false "close" finishFrame 1 (serving 1 trusting)))
             finishMessage); reflexivity.
Defined.

Lemma X21_untrusted_container_stops_request_witness :
  let st := serving 0 (device "vprodemo.com" lowercaseHash) in
  remoteConfiguration config (Some firmwareNonce) 0 st
  = (Normal (ErrorText errUntrusted), containerRead servedDomain st).
Proof.
  cbv zeta.
  apply (X21_untrusted_container_stops_request config (Some firmwareNonce) 0
           (serving 0 (device "vprodemo.com" lowercaseHash))
           (device "vprodemo.com" lowercaseHash) "vprodemo.com" servedDomain fullChain
           [mkHash (Some lowercaseHash)]).
  - vm_compute; reflexivity.
  - reflexivity.
  - discriminate.
  - exists [], [mkDomain "noroot.example" "/certs/noroot.pfx" "P@ssw0rd";
                mkDomain "nokey.example" "/certs/nokey.pfx" "P@ssw0rd"].
    repeat split. constructor.
  - split; [reflexivity|]. exists [x01], [x01], fullChain. repeat split.
  - reflexivity.
  - vm_compute; reflexivity.
Defined.

Lemma X22_signing_failures_reported_witness :
  let st := serving 0 (device "nokey.example" rootFingerprint) in
  remoteConfiguration config (Some firmwareNonce) 0 st
  = (Normal (ErrorText errSignature),
     advanceEntropy 20
       (containerRead (mkDomain "nokey.example" "/certs/nokey.pfx" "P@ssw0rd") st)).
Proof.
  cbv zeta.
  apply (X22_signing_failures_reported config firmwareNonce 0
           (serving 0 (device "nokey.example" rootFingerprint))
           (device "nokey.example" rootFingerprint) "nokey.example"
           (mkDomain "nokey.example" "/certs/nokey.pfx" "P@ssw0rd") noKey
           [mkHash (Some rootFingerprint)]).
  - vm_compute; reflexivity.
  - reflexivity.
  - discriminate.
  - exists [servedDomain; mkDomain "noroot.example" "/certs/noroot.pfx" "P@ssw0rd"], [].
    repeat split. repeat constructor; discriminate.
  - split; [reflexivity|]. exists [x03], [x03], noKey. repeat split.
  - reflexivity.
  - vm_compute; reflexivity.
  - left. reflexivity.
Defined.

Lemma C2_no_private_key_in_payload_witness :
  let run := remoteConfiguration (host := keyedSigner) config (Some firmwareNonce) 0 request in
  let rerun := remoteConfiguration (host := withKeys keyedSigner otherKeys) config
                 (Some firmwareNonce) 0 request in
  exists p p',
    run = (Normal (Value p), advanceEntropy 20 requestRead)
    /\ rerun = (Normal (Value p'), advanceEntropy 20 requestRead)
    /\ privateKey (certs p) = None
    /\ signature p' <> signature p
    /\ action p' = action p
    /\ certs p' = certs p
    /\ nonce p' = nonce p
    /\ password p' = password p
    /\ profileScript p' = profileScript p.
Proof.
  cbv zeta.
  set (run := remoteConfiguration (host := keyedSigner) config (Some firmwareNonce) 0 request).
  set (rerun := remoteConfiguration (host := withKeys keyedSigner otherKeys) config
                  (Some firmwareNonce) 0 request).
  set (p := match fst run with Normal (Value x) => x | _ => reply end).
  set (p' := match fst rerun with Normal (Value x) => x | _ => reply end).
  assert (H : run = (Normal (Value p), advanceEntropy 20 requestRead))
    by (vm_compute; reflexivity).
  assert (H' : rerun = (Normal (Value p'), advanceEntropy 20 requestRead))
    by (vm_compute; reflexivity).
  destruct (C2_no_private_key_in_payload (host := keyedSigner) config otherKeys)
    as [Hfields Hkeys].
  pose proof (Hfields (Some firmwareNonce) 0 request _ _ H) as [Hnone _].
  destruct (Hkeys (Some firmwareNonce) 0 request p _ p' _ H H')
    as (Ha & Hc & Hn & Hpw & Hs & _).
  exists p, p'. repeat (split; [assumption|]).
  split; [vm_compute; discriminate|].
  repeat (split; [assumption|]). assumption.
Defined.
